(** * cp2-sistema-robusto: generator / receiver / supervisor pipeline

    A shallow embedding of [main.c]: the three FreeRTOS tasks ([Task1],
    [Task2], [Task3]) become functions on an explicit system state, one
    call per iteration of the task's [for(;;)] loop.  Every printf, free,
    event-group signal, watchdog feed and delay of an iteration is recorded,
    in program order, in the list of events the function returns. *)

From Stdlib Require Import ZArith Lia List.
From stdpp Require Import base option list gmap.

Local Open Scope Z_scope.

(** ** C integers *)

Definition INT_MAX : Z := 2147483647.
Definition INT_MIN : Z := -2147483648.

(** A mathematical integer reduced to the 32-bit two's-complement range of
    [int]. *)
Definition int_wrap (z : Z) : Z := (z + 2 ^ 31) mod 2 ^ 32 - 2 ^ 31.

(** [x++] / [x + 1] on an [int]. *)
Definition int_succ (z : Z) : Z := int_wrap (z + 1).

(** A C scalar used as a condition. *)
Definition truthy (z : Z) : bool := negb (z =? 0).

(** ** Types and resources *)

(** [typedef struct { int id; int valor; } dado_t;] *)
Record dado_t := mk_dado { id : Z; valor : Z }.

#[global] Instance dado_t_eq_dec : EqDecision dado_t.
Proof. solve_decision. Defined.

(** A [dado_t *]: [None] is NULL, [Some a] the address of a block. *)
Definition dado_ptr : Type := option positive.

(** The part of the C heap that holds [dado_t] blocks: the live blocks and
    their contents. *)
Abbreviation heap_t := (gmap positive dado_t).

(** [malloc(sizeof(dado_t))]: NULL when the allocator is exhausted ([ok] is
    false), otherwise the address of a block that is not live. *)
Definition malloc (h : heap_t) (ok : bool) : dado_ptr :=
  if ok then Some (fresh (dom h)) else None.

(** [#define BIT_TASK1_OK (1 << 0)] and [#define BIT_TASK2_OK (1 << 1)] *)
Definition BIT_TASK1_OK : Z := Z.shiftl 1 0.
Definition BIT_TASK2_OK : Z := Z.shiftl 1 1.

(** ** Queue primitives

    [fila] is created by [xQueueCreate] with length 1 and items the size of
    a pointer: a FIFO of pointer values.  The queue copies the pointer it is
    given, never the block behind it; blocks are created and destroyed by
    [malloc] and [free] only. *)

Record Queue_t := mk_queue {
  uxLength : nat;              (* capacity, in items *)
  uxItems : list dado_ptr      (* waiting items, oldest first *)
}.

Definition uxMessagesWaiting (q : Queue_t) : nat := length (uxItems q).

(** [xQueueCreate(uxQueueLength, ...)]: an empty queue, or NULL. *)
Definition xQueueCreate (uxQueueLength : nat) (ok : bool) : option Queue_t :=
  if ok then Some (mk_queue uxQueueLength []) else None.

(** Modelled from the spec: the body of the FreeRTOS call [xQueueSend] is
    not in the sources; this is try_send of section 4.1 (the call is made
    with a block time of 0): succeeds iff there is room, otherwise fails at
    once and leaves the queue as it was.  The boolean is [pdTRUE]. *)
Definition xQueueSend (q : Queue_t) (item : dado_ptr) : Queue_t * bool :=
  if (uxMessagesWaiting q <? uxLength q)%nat
  then (mk_queue (uxLength q) (uxItems q ++ [item]), true)
  else (q, false).

(** Modelled from the spec: the body of the FreeRTOS call [xQueueReceive] is
    not in the sources; this is receive of section 4.1, taken at the moment
    the call returns: the oldest item if one is waiting ([pdTRUE]), and no
    effect at all when the block time ran out on an empty queue. *)
Definition xQueueReceive (q : Queue_t) : Queue_t * option dado_ptr :=
  match uxItems q with
  | [] => (q, None)
  | item :: rest => (mk_queue (uxLength q) rest, Some item)
  end.

(** Modelled from the spec: the body of the FreeRTOS call [xQueueReset] is
    not in the sources; this is reset of section 4.1: occupancy goes to 0
    and whatever the slot held is discarded.  What the slot holds in this
    program is the pointer value that [xQueueSend] copied in, and the call
    is given the queue only: the block behind a discarded pointer is not
    touched.  Blocks are released by [free] alone, which Task1 calls after
    a failed send and Task2 after a receive. *)
Definition xQueueReset (q : Queue_t) : Queue_t := mk_queue (uxLength q) [].

(** ** Event-group primitives *)

(** [xEventGroupCreate()]: all bits clear, or NULL. *)
Definition xEventGroupCreate (ok : bool) : option Z :=
  if ok then Some 0 else None.

(** Modelled from the spec: the body of the FreeRTOS call
    [xEventGroupSetBits] is not in the sources; this is signal of section
    4.2, an idempotent OR-merge. *)
Definition xEventGroupSetBits (uxEventBits uxBitsToSet : Z) : Z :=
  Z.lor uxEventBits uxBitsToSet.

(** Modelled from the spec: the body of the FreeRTOS call
    [xEventGroupWaitBits] is not in the sources; this is observe_and_clear
    of section 4.2, taken at the moment the call returns.  The wait
    condition holds when any (or, with [xWaitForAllBits], all) of the bits
    waited for are set; then the value of the group is returned and, with
    [xClearOnExit], the bits waited for are cleared.  When the block time
    ran out with the condition unmet the group is returned unchanged.  The
    result is (returned bits, event group afterwards). *)
Definition xEventGroupWaitBits (uxEventBits uxBitsToWaitFor : Z)
    (xClearOnExit xWaitForAllBits : bool) : Z * Z :=
  let met :=
    if xWaitForAllBits
    then Z.land uxEventBits uxBitsToWaitFor =? uxBitsToWaitFor
    else truthy (Z.land uxEventBits uxBitsToWaitFor) in
  if met
  then (uxEventBits,
        if xClearOnExit
        then Z.land uxEventBits (Z.lnot uxBitsToWaitFor)
        else uxEventBits)
  else (uxEventBits, uxEventBits).

(** ** Observable events *)

Inductive task_handle := hTask1 | hTask2 | hTask3.

(** One constructor per printf of [main.c], with its arguments in the order
    of the format string. *)
Inductive log_line :=
  | ERRO_alocacao_Task1
  | FILA_descartado (valor id : Z)
  | TX_enviado (valor id : Z)
  | ERRO_alocacao_receptor
  | RX_recebido (valor id : Z)
  | FILA_nenhum_dado (tentativas : Z) (plural : bool)
  | ALERTA_Task2
  | RECUPERACAO_fila
  | SUP_ok
  | SUP_apenas_Task1
  | SUP_apenas_Task2
  | FALHA_nenhuma.

Inductive event :=
  | printf (l : log_line)
  | ev_malloc (r : dado_ptr)
  | ev_free (p : positive)
  | ev_set_bits (bits : Z)
  | ev_wait_bits (returned : Z)
  | ev_queue_reset
  | esp_task_wdt_reset (t : task_handle)
  | vTaskDelay (ms : Z).

#[global] Instance task_handle_eq_dec : EqDecision task_handle.
Proof. solve_decision. Defined.
#[global] Instance log_line_eq_dec : EqDecision log_line.
Proof. solve_decision. Defined.
#[global] Instance event_eq_dec : EqDecision event.
Proof. solve_decision. Defined.

(** Number of occurrences of an event in a trace. *)
Definition occurrences (e : event) (tr : list event) : nat :=
  length (List.filter (fun x => bool_decide (x = e)) tr).

(** Number of events of a trace that satisfy a test. *)
Definition count_if (f : event -> bool) (tr : list event) : nat :=
  length (List.filter f tr).

Definition is_wdt_reset (t : task_handle) (e : event) : bool :=
  match e with
  | esp_task_wdt_reset t' => bool_decide (t' = t)
  | _ => false
  end.

Definition is_RX (e : event) : bool :=
  match e with printf (RX_recebido _ _) => true | _ => false end.

Definition is_free (e : event) : bool :=
  match e with ev_free _ => true | _ => false end.

(** ** System state

    The shared objects ([fila], [event_supervisor], the heap) and the locals
    that live across iterations ([seq] of Task1; [dados_recebidos] and
    [timeout] of Task2).  The tasks run only after [app_main] has checked
    that [fila] and [event_supervisor] are not NULL, so both are held by
    value. *)
Record sys := mk_sys {
  heap : heap_t;
  fila : Queue_t;
  event_supervisor : Z;
  seq : Z;
  dados_recebidos : dado_ptr;
  timeout : Z
}.

(** [app_main]: creates the queue of length 1 and the event group; a failed
    creation restarts the device ([None]) and no task ever runs. *)
Definition app_main (fila_ok event_ok : bool) : option sys :=
  match xQueueCreate 1 fila_ok, xEventGroupCreate event_ok with
  | Some q, Some e => Some (mk_sys ∅ q e 1 None 0)
  | _, _ => None
  end.

(** The state in which the tasks start. *)
Definition boot : sys := mk_sys ∅ (mk_queue 1 []) 0 1 None 0.

(** ** Task 1: generation of sequential items

    One iteration of the loop.  [malloc_ok] tells whether this iteration's
    [malloc] finds memory. *)
Definition Task1 (s : sys) (malloc_ok : bool) : sys * list event :=
  match malloc (heap s) malloc_ok with
  | None =>
      (* log, wait a period, [continue] *)
      (s, [ev_malloc None; printf ERRO_alocacao_Task1; vTaskDelay 1000])
  | Some dados =>
      (* dados->id = seq++; dados->valor = dados->id; *)
      let d_id := seq s in
      let seq' := int_succ (seq s) in
      let d := mk_dado d_id d_id in
      let h := <[dados := d]> (heap s) in
      let '(q, sent) := xQueueSend (fila s) (Some dados) in
      if negb sent
      then
        (mk_sys (delete dados h) q (event_supervisor s) seq'
           (dados_recebidos s) (timeout s),
         [ev_malloc (Some dados);
          printf (FILA_descartado (valor d) (id d));
          ev_free dados;
          esp_task_wdt_reset hTask1;
          vTaskDelay 1000])
      else
        (mk_sys h q (xEventGroupSetBits (event_supervisor s) BIT_TASK1_OK)
           seq' (dados_recebidos s) (timeout s),
         [ev_malloc (Some dados);
          ev_set_bits BIT_TASK1_OK;
          printf (TX_enviado (valor d) (id d));
          esp_task_wdt_reset hTask1;
          vTaskDelay 1000])
  end.

(** ** Task 2: reception

    Reading through or freeing a pointer that is NULL or not live is
    undefined behaviour: the iteration then has no result ([None]). *)

(** The branch taken when [xQueueReceive] returned [pdTRUE] and stored
    [item] in [dados_recebidos]. *)
Definition Task2_received (s : sys) (q : Queue_t) (item : dado_ptr)
    (malloc_ok : bool) : option (sys * list event) :=
  (* working copy: malloc, copy, log, free *)
  '(h1, tr1) ←
    match malloc (heap s) malloc_ok with
    | None => Some (heap s, [ev_malloc None; printf ERRO_alocacao_receptor])
    | Some tmp =>
        p ← item;
        d ← heap s !! p;
        let h := <[tmp := d]> (heap s) in
        d' ← h !! tmp;
        Some (delete tmp h,
              [ev_malloc (Some tmp);
               printf (RX_recebido (valor d') (id d'));
               ev_free tmp])
    end;
  (* if (dados_recebidos != NULL) { free(dados_recebidos); ... = NULL; } *)
  '(h2, tr2) ←
    match item with
    | None => Some (h1, [])
    | Some p => if decide (p ∈ dom h1)
                then Some (delete p h1, [ev_free p]) else None
    end;
  Some (mk_sys h2 q (xEventGroupSetBits (event_supervisor s) BIT_TASK2_OK)
          (seq s) None 0,
        tr1 ++ tr2 ++ [ev_set_bits BIT_TASK2_OK; esp_task_wdt_reset hTask2]).

(** The branch taken when [xQueueReceive] timed out. *)
Definition Task2_timed_out (s : sys) : sys * list event :=
  let t := int_succ (timeout s) in
  let tr_log := [printf (FILA_nenhum_dado t (negb (t =? 1)))] in
  let tr_alerta := if t =? 3 then [printf ALERTA_Task2] else [] in
  if t >=? 5
  then
    (mk_sys (heap s) (xQueueReset (fila s)) (event_supervisor s) (seq s)
       (dados_recebidos s) 0,
     tr_log ++ tr_alerta ++ [printf RECUPERACAO_fila; ev_queue_reset])
  else
    (mk_sys (heap s) (fila s) (event_supervisor s) (seq s)
       (dados_recebidos s) t,
     tr_log ++ tr_alerta).

(** One iteration of the loop, from the moment [xQueueReceive] returns. *)
Definition Task2 (s : sys) (malloc_ok : bool) : option (sys * list event) :=
  match xQueueReceive (fila s) with
  | (q, Some item) => Task2_received s q item malloc_ok
  | (_, None) => Some (Task2_timed_out s)
  end.

(** ** Task 3: supervision *)

(** The if / else-if chain on the observed bits. *)
Definition Task3_report (bits : Z) : log_line :=
  if truthy (Z.land bits BIT_TASK1_OK) && truthy (Z.land bits BIT_TASK2_OK)
  then SUP_ok
  else if truthy (Z.land bits BIT_TASK1_OK) then SUP_apenas_Task1
  else if truthy (Z.land bits BIT_TASK2_OK) then SUP_apenas_Task2
  else FALHA_nenhuma.

(** One iteration of the loop, from the moment [xEventGroupWaitBits]
    returns. *)
Definition Task3 (s : sys) : sys * list event :=
  let '(bits, e) :=
    xEventGroupWaitBits (event_supervisor s)
      (Z.lor BIT_TASK1_OK BIT_TASK2_OK) true false in
  (mk_sys (heap s) (fila s) e (seq s) (dados_recebidos s) (timeout s),
   [ev_wait_bits bits;
    printf (Task3_report bits);
    esp_task_wdt_reset hTask3;
    vTaskDelay 2000]).

(** ** Schedules

    The scheduler picks which task runs its next iteration; the allocator
    decides whether a [malloc] succeeds. *)
Inductive action :=
  | run_Task1 (malloc_ok : bool)
  | run_Task2 (malloc_ok : bool)
  | run_Task3.

Definition step (s : sys) (a : action) : option (sys * list event) :=
  match a with
  | run_Task1 ok => Some (Task1 s ok)
  | run_Task2 ok => Task2 s ok
  | run_Task3 => Some (Task3 s)
  end.

(** Runs a schedule; the result is the final state and the whole trace. *)
Fixpoint exec (s : sys) (l : list action) : option (sys * list event) :=
  match l with
  | [] => Some (s, [])
  | a :: l' =>
      '(s1, tr1) ← step s a;
      '(s2, tr2) ← exec s1 l';
      Some (s2, tr1 ++ tr2)
  end.

(** The items that Task1 filled in, in the order of creation, as its two
    log lines show them: every item that was created is reported either as
    sent or as dropped. *)
Definition created_item (e : event) : option dado_t :=
  match e with
  | printf (TX_enviado v i) => Some (mk_dado i v)
  | printf (FILA_descartado v i) => Some (mk_dado i v)
  | _ => None
  end.

Definition created (tr : list event) : list dado_t :=
  omap created_item tr.

(** States that some schedule reaches from [boot]. *)
Definition reachable (s : sys) : Prop :=
  ∃ l tr, exec boot l = Some (s, tr).

(** The tasks have the same priority and the scheduler is preemptive:
    while Task2 is between the return of [xQueueReceive] and the branch
    that follows it, Task1 and Task3 may run. *)
Inductive other_action :=
  | other_Task1 (malloc_ok : bool)
  | other_Task3.

Definition other_step (s : sys) (a : other_action) : sys * list event :=
  match a with
  | other_Task1 ok => Task1 s ok
  | other_Task3 => Task3 s
  end.

Fixpoint other_exec (s : sys) (l : list other_action) : sys * list event :=
  match l with
  | [] => (s, [])
  | a :: l' =>
      let '(s1, tr1) := other_step s a in
      let '(s2, tr2) := other_exec s1 l' in
      (s2, tr1 ++ tr2)
  end.

(** One iteration of Task2 during which [others] run right after
    [xQueueReceive] has returned. *)
Definition Task2_preempted (s : sys) (others : list other_action)
    (malloc_ok : bool) : option (sys * list event) :=
  match xQueueReceive (fila s) with
  | (q, Some item) =>
      let s1 := mk_sys (heap s) q (event_supervisor s) (seq s) item
                  (timeout s) in
      let '(s2, tr2) := other_exec s1 others in
      '(s3, tr3) ← Task2_received s2 (fila s2) item malloc_ok;
      Some (s3, tr2 ++ tr3)
  | (_, None) =>
      let '(s2, tr2) := other_exec s others in
      let '(s3, tr3) := Task2_timed_out s2 in
      Some (s3, tr2 ++ tr3)
  end.

(** ** Vocabulary of the properties *)

(** What holds of every state the tasks can be in: the queue has capacity 1
    and either is empty with no live block, or holds the address of the one
    live block; Task2's pointer is NULL between iterations and its counter
    is below the recovery threshold; only the two supervisor bits are ever
    set. *)
Definition inv (s : sys) : Prop :=
  uxLength (fila s) = 1%nat ∧
  ((uxItems (fila s) = [] ∧ heap s = ∅) ∨
   (∃ p d, uxItems (fila s) = [Some p] ∧ heap s = {[p := d]})) ∧
  dados_recebidos s = None ∧
  0 <= timeout s <= 4 ∧
  0 <= event_supervisor s <= 3.

(** Whether the send of an iteration of Task1 succeeds: the item was
    allocated and [xQueueSend] returned [pdTRUE]. *)
Definition Task1_sent (s : sys) (malloc_ok : bool) : bool :=
  match malloc (heap s) malloc_ok with
  | Some dados => (xQueueSend (fila s) (Some dados)).2
  | None => false
  end.

(** Whether the [xQueueReceive] of an iteration of Task2 returns
    [pdTRUE]. *)
Definition Task2_receives (s : sys) : bool :=
  match (xQueueReceive (fila s)).2 with
  | Some _ => true
  | None => false
  end.

(** Operations on the channel alone. *)
Inductive channel_op :=
  | try_send (item : dado_ptr)
  | receive
  | reset.

Definition channel_step (q : Queue_t) (op : channel_op) : Queue_t :=
  match op with
  | try_send item => fst (xQueueSend q item)
  | receive => fst (xQueueReceive q)
  | reset => xQueueReset q
  end.

Definition channel_run (q : Queue_t) (ops : list channel_op) : Queue_t :=
  fold_left channel_step ops q.

(** The bits signalled since the last observation by the supervisor, read
    off a trace ([acc] is the value at the start of the trace). *)
Fixpoint signalled_since_observation (acc : Z) (tr : list event) : Z :=
  match tr with
  | [] => acc
  | ev_set_bits b :: tr' => signalled_since_observation (Z.lor acc b) tr'
  | ev_wait_bits _ :: tr' => signalled_since_observation 0 tr'
  | _ :: tr' => signalled_since_observation acc tr'
  end.

(** The number of receive timeouts in a row, read off a trace: a timeout is
    an iteration that logs "nenhum dado"; the row is broken by a successful
    receive (which signals [BIT_TASK2_OK]) and by a recovery (which resets
    the queue). *)
Fixpoint consecutive_timeouts (acc : Z) (tr : list event) : Z :=
  match tr with
  | [] => acc
  | printf (FILA_nenhum_dado _ _) :: tr' => consecutive_timeouts (acc + 1) tr'
  | ev_set_bits b :: tr' =>
      consecutive_timeouts (if b =? BIT_TASK2_OK then 0 else acc) tr'
  | ev_queue_reset :: tr' => consecutive_timeouts 0 tr'
  | _ :: tr' => consecutive_timeouts acc tr'
  end.

(** Every attempt count that Task2 logs. *)
Definition logged_attempts (tr : list event) : list Z :=
  omap (fun e => match e with
                 | printf (FILA_nenhum_dado n _) => Some n
                 | _ => None
                 end) tr.

(** ** The whole system: further vocabulary *)

Definition is_malloc_ok (e : event) : bool :=
  match e with ev_malloc (Some _) => true | _ => false end.

(** The number of live blocks after a trace that started with [acc] of
    them: every successful malloc adds one, every free removes one. *)
Definition live_blocks_after (acc : Z) (tr : list event) : Z :=
  acc + Z.of_nat (count_if is_malloc_ok tr) - Z.of_nat (count_if is_free tr).

(** The items of the TX lines and of the RX lines of a trace, in order. *)
Definition sent_item (e : event) : option dado_t :=
  match e with printf (TX_enviado v i) => Some (mk_dado i v) | _ => None end.

Definition sent (tr : list event) : list dado_t := omap sent_item tr.

Definition received_item (e : event) : option dado_t :=
  match e with printf (RX_recebido v i) => Some (mk_dado i v) | _ => None end.

Definition received (tr : list event) : list dado_t := omap received_item tr.

(** The items waiting in the queue: what its pointers refer to. *)
Definition pending (s : sys) : list dado_t :=
  omap (fun item : dado_ptr => item ≫= (fun p => heap s !! p))
       (uxItems (fila s)).


Definition is_empty (s : sys) : bool :=
  match uxItems (fila s) with [] => true | _ :: _ => false end.


(** The state of the system while Task2 holds the received block [p] and
    has not freed it yet: [p] is live, and the queue is empty or holds one
    other live block. *)
Definition inv_holding (p : positive) (s : sys) : Prop :=
  uxLength (fila s) = 1%nat ∧
  (∃ d, (uxItems (fila s) = [] ∧ heap s = {[p := d]}) ∨
        (∃ q d', q ≠ p ∧ uxItems (fila s) = [Some q] ∧
                 heap s = <[q := d']> {[p := d]})) ∧
  0 <= timeout s <= 4 ∧
  0 <= event_supervisor s <= 3.

(** Whether Task1 finds memory in some iteration among [others]. *)
Definition allocates (others : list other_action) : bool :=
  existsb (fun a => match a with
                    | other_Task1 ok => ok
                    | other_Task3 => false
                    end) others.

(** While Task1 is between the return of [xQueueSend] and the printf that
    follows it, Task2 and Task3 may run. *)
Inductive preempting_action :=
  | by_Task2 (malloc_ok : bool)
  | by_Task3.

Definition preempting_step (s : sys) (a : preempting_action)
    : option (sys * list event) :=
  match a with
  | by_Task2 ok => Task2 s ok
  | by_Task3 => Some (Task3 s)
  end.

Fixpoint preempting_exec (s : sys) (l : list preempting_action)
    : option (sys * list event) :=
  match l with
  | [] => Some (s, [])
  | a :: l' =>
      '(s1, tr1) ← preempting_step s a;
      '(s2, tr2) ← preempting_exec s1 l';
      Some (s2, tr1 ++ tr2)
  end.

Definition has_Task2 (l : list preempting_action) : bool :=
  existsb (fun a => match a with by_Task2 _ => true | by_Task3 => false end) l.

(** One iteration of Task1 during which [others] run right after
    [xQueueSend] has returned.  The printf of either branch reads
    [dados->valor] and [dados->id] through the pointer, at that moment. *)
Definition Task1_preempted (s : sys) (malloc_ok : bool)
    (others : list preempting_action) : option (sys * list event) :=
  match malloc (heap s) malloc_ok with
  | None =>
      Some (s, [ev_malloc None; printf ERRO_alocacao_Task1; vTaskDelay 1000])
  | Some dados =>
      let d := mk_dado (seq s) (seq s) in
      let h := <[dados := d]> (heap s) in
      let '(q, was_sent) := xQueueSend (fila s) (Some dados) in
      let s1 := mk_sys h q (event_supervisor s) (int_succ (seq s))
                  (dados_recebidos s) (timeout s) in
      '(s2, tr2) ← preempting_exec s1 others;
      v ← heap s2 !! dados;
      if negb was_sent
      then
        Some (mk_sys (delete dados (heap s2)) (fila s2) (event_supervisor s2)
                (seq s2) (dados_recebidos s2) (timeout s2),
              [ev_malloc (Some dados)] ++ tr2 ++
              [printf (FILA_descartado (valor v) (id v));
               ev_free dados;
               esp_task_wdt_reset hTask1;
               vTaskDelay 1000])
      else
        Some (mk_sys (heap s2) (fila s2)
                (xEventGroupSetBits (event_supervisor s2) BIT_TASK1_OK)
                (seq s2) (dados_recebidos s2) (timeout s2),
              [ev_malloc (Some dados)] ++ tr2 ++
              [ev_set_bits BIT_TASK1_OK;
               printf (TX_enviado (valor v) (id v));
               esp_task_wdt_reset hTask1;
               vTaskDelay 1000])
  end.



(** ** Start-up *)

(** What [app_main] does, in program order. *)
Inductive startup_event :=
  | printf_iniciando
  | esp_task_wdt_init (timeout_ms idle_core_mask : Z) (trigger_panic : bool)
  | printf_ERRO_recursos
  | esp_restart
  | xTaskCreate (t : task_handle) (created : bool)
  | esp_task_wdt_add (t : task_handle).

#[global] Instance startup_event_eq_dec : EqDecision startup_event.
Proof. solve_decision. Defined.

(** [if (hTask) esp_task_wdt_add(hTask);] *)
Definition wdt_add_if (t : task_handle) (created : bool)
    : list startup_event :=
  if created then [esp_task_wdt_add t] else [].

(** [app_main] with its calls recorded.  [esp_restart] does not return:
    nothing follows it.  The booleans tell which creations succeed. *)
Definition app_main_trace (fila_ok event_ok t1 t2 t3 : bool)
    : list startup_event * option sys :=
  let init :=
    [printf_iniciando;
     esp_task_wdt_init 5000 (Z.lor (Z.shiftl 1 0) (Z.shiftl 1 1)) true] in
  match xQueueCreate 1 fila_ok, xEventGroupCreate event_ok with
  | Some q, Some e =>
      (init ++
       [xTaskCreate hTask1 t1; xTaskCreate hTask2 t2; xTaskCreate hTask3 t3]
       ++ wdt_add_if hTask1 t1 ++ wdt_add_if hTask2 t2
       ++ wdt_add_if hTask3 t3,
       Some (mk_sys ∅ q e 1 None 0))
  | _, _ => (init ++ [printf_ERRO_recursos; esp_restart], None)
  end.

(** ** Proof helpers *)

(** Splits an [inv] goal into its five parts: capacity, queue and heap,
    Task2's pointer, Task2's counter, supervisor bits. *)
Ltac split_inv :=
  unfold inv; simpl; refine (conj _ (conj _ (conj _ (conj _ _)))).

(** The five values the counter can have when an iteration starts. *)
Ltac counter_cases t Ht :=
  let H := fresh in
  assert (H : t = 0 ∨ t = 1 ∨ t = 2 ∨ t = 3 ∨ t = 4) by lia;
  clear Ht; destruct H as [->|[->|[->|[->| ->]]]].

(** Decides membership of an event in a trace that is written out. *)
Ltac trace_mem :=
  repeat match goal with
         | H : _ ∈ _ |- _ => apply list_elem_of_In in H; simpl in H
         | |- _ ∈ _ => apply list_elem_of_In; simpl
         end;
  intuition (discriminate || lia || congruence || eauto).

(** ** Basic facts *)

Lemma int_succ_in_range (z : Z) :
  INT_MIN <= z < INT_MAX -> int_succ z = z + 1.
Proof.
  unfold INT_MIN, INT_MAX, int_succ, int_wrap. intros Hz.
  rewrite Z.mod_small; lia.
Qed.

Lemma int_wrap_in_range (z : Z) : INT_MIN <= z <= INT_MAX -> int_wrap z = z.
Proof.
  unfold INT_MIN, INT_MAX, int_wrap. intros Hz.
  rewrite Z.mod_small; lia.
Qed.

Lemma int_wrap_add (a b : Z) : int_wrap (int_wrap a + b) = int_wrap (a + b).
Proof.
  unfold int_wrap.
  replace ((a + 2 ^ 31) mod 2 ^ 32 - 2 ^ 31 + b + 2 ^ 31)
    with ((a + 2 ^ 31) mod 2 ^ 32 + b) by lia.
  rewrite Zplus_mod_idemp_l. f_equal. f_equal. lia.
Qed.

Lemma int_wrap_idemp (z : Z) : int_wrap (int_wrap z) = int_wrap z.
Proof.
  rewrite <- (Z.add_0_r (int_wrap z)), int_wrap_add. by rewrite !Z.add_0_r.
Qed.

Lemma malloc_true (h : heap_t) : malloc h true = Some (fresh (dom h)).
Proof. reflexivity. Qed.

Lemma malloc_not_live (h : heap_t) : h !! fresh (dom h) = None.
Proof. apply not_elem_of_dom, is_fresh. Qed.

(** With both creations successful [app_main] starts the tasks in [boot];
    otherwise it restarts the device. *)
Lemma app_main_boot (fila_ok event_ok : bool) :
  app_main fila_ok event_ok = if fila_ok && event_ok then Some boot else None.
Proof. by destruct fila_ok, event_ok. Qed.

Lemma exec_app (l1 l2 : list action) (s : sys) :
  exec s (l1 ++ l2) =
  '(s1, tr1) ← exec s l1; '(s2, tr2) ← exec s1 l2; Some (s2, tr1 ++ tr2).
Proof.
  revert s. induction l1 as [|a l1 IH]; intros s; simpl.
  - destruct (exec s l2) as [[s2 tr2]|]; reflexivity.
  - destruct (step s a) as [[s1 tr1]|]; simpl; [|reflexivity].
    rewrite IH. destruct (exec s1 l1) as [[s2 tr2]|]; simpl; [|reflexivity].
    destruct (exec s2 l2) as [[s3 tr3]|]; simpl; [|reflexivity].
    by rewrite app_assoc.
Qed.

Lemma created_app (tr1 tr2 : list event) :
  created (tr1 ++ tr2) = created tr1 ++ created tr2.
Proof. apply omap_app. Qed.

(** *** The branches of Task2 *)

Lemma Task2_empty (s : sys) (ok : bool) :
  uxItems (fila s) = [] -> Task2 s ok = Some (Task2_timed_out s).
Proof. intros H. unfold Task2, xQueueReceive. by rewrite H. Qed.

Lemma Task2_occupied (s : sys) (ok : bool) (item : dado_ptr)
    (rest : list dado_ptr) :
  uxItems (fila s) = item :: rest ->
  Task2 s ok = Task2_received s (mk_queue (uxLength (fila s)) rest) item ok.
Proof. intros H. unfold Task2, xQueueReceive. by rewrite H. Qed.

(** The receive branch on a live block: the working-copy step leaves the
    heap as it found it, and the original block is then freed. *)
Lemma Task2_received_live (s : sys) (q : Queue_t) (p : positive) (d : dado_t)
    (ok : bool) :
  heap s !! p = Some d ->
  Task2_received s q (Some p) ok =
  Some (mk_sys (delete p (heap s)) q
          (xEventGroupSetBits (event_supervisor s) BIT_TASK2_OK) (seq s)
          None 0,
        (if ok
         then [ev_malloc (Some (fresh (dom (heap s))));
               printf (RX_recebido (valor d) (id d));
               ev_free (fresh (dom (heap s)))]
         else [ev_malloc None; printf ERRO_alocacao_receptor])
        ++ [ev_free p; ev_set_bits BIT_TASK2_OK; esp_task_wdt_reset hTask2]).
Proof.
  intros Hp. unfold Task2_received.
  assert (Hin : p ∈ dom (heap s)) by (apply elem_of_dom; eauto).
  destruct ok; simpl.
  - rewrite Hp. simpl. rewrite lookup_insert_eq. simpl.
    rewrite delete_insert_id by apply malloc_not_live.
    rewrite decide_True by done. reflexivity.
  - rewrite decide_True by done. reflexivity.
Qed.

(** The timeout branch, written out for a counter below the threshold. *)
Lemma Task2_timed_out_eq (s : sys) :
  0 <= timeout s <= 4 ->
  Task2_timed_out s =
  (mk_sys (heap s)
     (if timeout s =? 4 then xQueueReset (fila s) else fila s)
     (event_supervisor s) (seq s) (dados_recebidos s)
     (if timeout s =? 4 then 0 else timeout s + 1),
   [printf (FILA_nenhum_dado (timeout s + 1) (negb (timeout s =? 0)))]
   ++ (if timeout s =? 2 then [printf ALERTA_Task2] else [])
   ++ (if timeout s =? 4 then [printf RECUPERACAO_fila; ev_queue_reset]
       else [])).
Proof.
  destruct s as [h q e sq dr t]; simpl. intros Ht.
  counter_cases t Ht; reflexivity.
Qed.

(** *** Bits of the event group *)

Lemma land_bit (b n : Z) :
  0 <= n ->
  Z.land b (Z.shiftl 1 n) = if Z.testbit b n then Z.shiftl 1 n else 0.
Proof.
  intros Hn. rewrite Z.shiftl_1_l. apply Z.bits_inj'. intros m Hm.
  rewrite Z.land_spec, Z.pow2_bits_eqb by done.
  destruct (Z.eqb_spec n m) as [->|Hne].
  - destruct (Z.testbit b m) eqn:Hb; simpl.
    + by rewrite Z.pow2_bits_true.
    + by rewrite Z.bits_0.
  - rewrite andb_false_r. destruct (Z.testbit b n).
    + by rewrite Z.pow2_bits_false.
    + by rewrite Z.bits_0.
Qed.

Lemma truthy_land_bit (b n : Z) :
  0 <= n -> truthy (Z.land b (Z.shiftl 1 n)) = Z.testbit b n.
Proof.
  intros Hn. rewrite land_bit by done. unfold truthy.
  destruct (Z.testbit b n); [|done].
  rewrite Z.shiftl_1_l.
  destruct (Z.eqb_spec (2 ^ n) 0) as [H0|]; [|done].
  pose proof (Z.pow_pos_nonneg 2 n). lia.
Qed.

Lemma truthy_lor (a b : Z) : truthy (Z.lor a b) = truthy a || truthy b.
Proof.
  unfold truthy.
  destruct (Z.eqb_spec (Z.lor a b) 0) as [H0|Hn0].
  - apply Z.lor_eq_0_iff in H0 as [-> ->]. done.
  - destruct (Z.eqb_spec a 0) as [->|]; [|done].
    destruct (Z.eqb_spec b 0) as [->|]; [|done].
    done.
Qed.

(** The wait of Task3 on any value of the group: it returns the value, and
    afterwards both supervisor bits are clear. *)
Lemma Task3_wait_bits (e : Z) :
  let '(returned, after) :=
    xEventGroupWaitBits e (Z.lor BIT_TASK1_OK BIT_TASK2_OK) true false in
  returned = e ∧
  Z.testbit after 0 = false ∧ Z.testbit after 1 = false ∧
  (Z.testbit e 0 = false → Z.testbit e 1 = false → after = e).
Proof.
  unfold xEventGroupWaitBits.
  rewrite Z.land_lor_distr_r, truthy_lor.
  unfold BIT_TASK1_OK, BIT_TASK2_OK. rewrite !truthy_land_bit by lia.
  change (Z.lor (Z.shiftl 1 0) (Z.shiftl 1 1)) with 3.
  assert (Hclear : ∀ n, n = 0 ∨ n = 1 →
            Z.testbit (Z.land e (Z.lnot 3)) n = false).
  { intros n [-> | ->]; rewrite Z.land_spec, Z.lnot_spec by lia;
      apply andb_false_r. }
  destruct (Z.testbit e 0) eqn:H0, (Z.testbit e 1) eqn:H1; cbn [orb];
    (split; [done|]); (split; [auto|]); (split; [auto|]); done.
Qed.

Lemma Task3_report_bits (bits : Z) :
  Task3_report bits =
  match Z.testbit bits 0, Z.testbit bits 1 with
  | true, true => SUP_ok
  | true, false => SUP_apenas_Task1
  | false, true => SUP_apenas_Task2
  | false, false => FALHA_nenhuma
  end.
Proof.
  unfold Task3_report, BIT_TASK1_OK, BIT_TASK2_OK.
  rewrite !truthy_land_bit by lia.
  by destruct (Z.testbit bits 0), (Z.testbit bits 1).
Qed.

Lemma Task3_report_cases (bits : Z) :
  Task3_report bits = SUP_ok ∨ Task3_report bits = SUP_apenas_Task1 ∨
  Task3_report bits = SUP_apenas_Task2 ∨ Task3_report bits = FALHA_nenhuma.
Proof.
  rewrite Task3_report_bits.
  destruct (Z.testbit bits 0), (Z.testbit bits 1); auto.
Qed.

Lemma supervisor_bits_cases (e : Z) :
  0 <= e <= 3 -> e = 0 ∨ e = 1 ∨ e = 2 ∨ e = 3.
Proof. lia. Qed.

Lemma set_bit_in_range (e b : Z) :
  0 <= e <= 3 -> b = BIT_TASK1_OK ∨ b = BIT_TASK2_OK ->
  0 <= xEventGroupSetBits e b <= 3.
Proof.
  intros He Hb.
  destruct (supervisor_bits_cases e He) as [->|[->|[->| ->]]];
    destruct Hb as [-> | ->]; vm_compute; split; discriminate.
Qed.

(** With only the two supervisor bits in use, the observation returns the
    group as it is and leaves it empty. *)
Lemma Task3_wait_clears (e : Z) :
  0 <= e <= 3 ->
  xEventGroupWaitBits e (Z.lor BIT_TASK1_OK BIT_TASK2_OK) true false = (e, 0).
Proof.
  intros He.
  by destruct (supervisor_bits_cases e He) as [->|[->|[->| ->]]].
Qed.

(** ** The invariant *)

Lemma inv_boot : inv boot.
Proof. unfold boot. split_inv; [done | by left | done | lia | lia]. Qed.

(** In a state that satisfies the invariant an occupied queue holds the
    address of a live block, and nothing else. *)
Lemma inv_occupied (s : sys) (item : dado_ptr) (rest : list dado_ptr) :
  inv s -> uxItems (fila s) = item :: rest ->
  ∃ p d, item = Some p ∧ rest = [] ∧ heap s = {[p := d]}.
Proof.
  intros (_ & Hq & _) Hitems.
  destruct Hq as [[Hnil _] | (p & d & Hp & Hh)]; [congruence|].
  exists p, d. rewrite Hp in Hitems. by injection Hitems as <- <-.
Qed.

Lemma Task1_inv (s : sys) (ok : bool) : inv s -> inv (Task1 s ok).1.
Proof.
  destruct s as [h [cap items] e sq dr t].
  intros (Hcap & Hq & Hdr & Ht & He); simpl in *; subst cap.
  unfold Task1, xQueueSend, uxMessagesWaiting; destruct ok; simpl;
    [|by split_inv].
  destruct Hq as [[-> ->] | (p & d & -> & ->)]; simpl.
  - split_inv; [done | | done | done |].
    + right. eexists _, _. split; [done|]. by rewrite insert_empty.
    + by apply set_bit_in_range; [|left].
  - split_inv; [done | | done | done | done].
    right. exists p, d. split; [done|].
    apply delete_insert_id, malloc_not_live.
Qed.

Lemma Task2_inv (s : sys) (ok : bool) :
  inv s -> ∃ s' tr, Task2 s ok = Some (s', tr) ∧ inv s'.
Proof.
  intros Hs.
  destruct (uxItems (fila s)) as [|item rest] eqn:Hitems.
  - rewrite Task2_empty by done.
    destruct Hs as (Hcap & Hq & Hdr & Ht & He).
    rewrite Task2_timed_out_eq by done. eexists _, _. split; [done|].
    destruct Hq as [[_ Hh] | (p & d & Hp & _)]; [|congruence].
    destruct (timeout s =? 4) eqn:H4;
      (split_inv; [done | by left | done | lia | done]).
  - destruct (inv_occupied s item rest Hs Hitems) as (p & d & -> & -> & Hh).
    rewrite (Task2_occupied s ok (Some p) []) by done.
    rewrite (Task2_received_live s _ p d)
      by (rewrite Hh; apply lookup_singleton_eq).
    eexists _, _. split; [done|].
    destruct Hs as (Hcap & _ & _ & _ & He).
    split_inv; [done | | done | lia |].
    + left. split; [done|]. rewrite Hh. apply delete_singleton_eq.
    + by apply set_bit_in_range; [|right].
Qed.

Lemma Task3_inv (s : sys) : inv s -> inv (Task3 s).1.
Proof.
  intros (Hcap & Hq & Hdr & Ht & He).
  unfold Task3. rewrite Task3_wait_clears by done.
  by split_inv.
Qed.

Lemma step_inv (s : sys) (a : action) :
  inv s -> ∃ s' tr, step s a = Some (s', tr) ∧ inv s'.
Proof.
  intros Hs. destruct a as [ok | ok |]; simpl.
  - exists (Task1 s ok).1, (Task1 s ok).2. split.
    + by destruct (Task1 s ok).
    + by apply Task1_inv.
  - by apply Task2_inv.
  - exists (Task3 s).1, (Task3 s).2. split.
    + by destruct (Task3 s).
    + by apply Task3_inv.
Qed.

(** No schedule runs into undefined behaviour, and every state on the way
    satisfies the invariant. *)
Lemma exec_inv (l : list action) (s : sys) :
  inv s -> ∃ s' tr, exec s l = Some (s', tr) ∧ inv s'.
Proof.
  revert s. induction l as [|a l IH]; intros s Hs; simpl.
  - by exists s, [].
  - destruct (step_inv s a Hs) as (s1 & tr1 & -> & Hs1). simpl.
    destruct (IH s1 Hs1) as (s2 & tr2 & -> & Hs2). simpl.
    by eexists _, _.
Qed.

Lemma reachable_inv (s : sys) : reachable s -> inv s.
Proof.
  intros (l & tr & Hl).
  destruct (exec_inv l boot inv_boot) as (s' & tr' & Hl' & Hs').
  congruence.
Qed.

Lemma run_inv (l : list action) (s : sys) (tr : list event) :
  exec boot l = Some (s, tr) -> inv s.
Proof. intros Hl. apply reachable_inv. by exists l, tr. Qed.

(** ** One iteration at a time *)

(** Case analysis on one step from a state that satisfies the invariant:
    the three paths of Task1 (sent, dropped, malloc failed), the timeout
    path of Task2 for each value of its counter, its receive path with and
    without a working copy, and Task3 for each of its four reports.  In
    every case the resulting state and trace are written out. *)
Ltac step_paths s a Hs Hstep :=
  let ok := fresh "ok" in
  destruct a as [ok | ok |]; simpl in Hstep;
  [ injection Hstep as Hstep; unfold Task1 in Hstep;
    destruct (malloc (heap s) ok);
    [ destruct (xQueueSend _ _) as [? []] | ];
    injection Hstep as <- <-
  | let item := fresh "item" in
    let rest := fresh "rest" in
    let Hitems := fresh "Hitems" in
    destruct (uxItems (fila s)) as [|item rest] eqn:Hitems;
    [ let Ht := fresh "Ht" in
      assert (Ht : 0 <= timeout s <= 4) by apply Hs;
      rewrite Task2_empty in Hstep by done;
      rewrite Task2_timed_out_eq in Hstep by done;
      injection Hstep as <- <-;
      destruct s; simpl in *;
      match goal with H : 0 <= ?t <= 4 |- _ => counter_cases t H end
    | let p := fresh "p" in
      let d := fresh "d" in
      let Hh := fresh "Hh" in
      destruct (inv_occupied s item rest Hs Hitems) as (p & d & -> & -> & Hh);
      rewrite (Task2_occupied s ok (Some p) []) in Hstep by done;
      rewrite (Task2_received_live s _ p d) in Hstep
        by (rewrite Hh; apply lookup_singleton_eq);
      injection Hstep as <- <-; destruct ok ]
  | injection Hstep as Hstep; unfold Task3 in Hstep;
    rewrite Task3_wait_clears in Hstep by apply Hs;
    injection Hstep as <- <-;
    destruct (Task3_report_cases (event_supervisor s))
      as [->|[->|[->| ->]]] ].

(** A quantity that is read off the trace from left to right and that
    every step keeps equal to some field of the state stays equal to that
    field along every run. *)
Section Trace_fold.
Variable f : Z -> list event -> Z.
Variable g : sys -> Z.
Hypothesis f_nil : ∀ acc, f acc [] = acc.
Hypothesis f_app :
  ∀ acc tr1 tr2, f acc (tr1 ++ tr2) = f (f acc tr1) tr2.
Hypothesis f_step :
  ∀ s a s' tr, inv s → step s a = Some (s', tr) → f (g s) tr = g s'.

Lemma exec_fold (l : list action) (s s' : sys) (tr : list event) :
  inv s -> exec s l = Some (s', tr) -> f (g s) tr = g s'.
Proof.
  revert s tr. induction l as [|a l IH]; intros s tr Hs Hl; simpl in Hl.
  - injection Hl as <- <-. apply f_nil.
  - destruct (step_inv s a Hs) as (s1 & tr1 & Hstep & Hs1).
    rewrite Hstep in Hl; simpl in Hl.
    destruct (exec s1 l) as [[s2 tr2]|] eqn:Hl2; [|done].
    simpl in Hl. injection Hl as <- <-.
    rewrite f_app, (f_step s a s1 tr1) by done.
    by apply IH.
Qed.
End Trace_fold.

(** A property of traces that holds of every step and is kept by
    concatenation holds of every run. *)
Section Trace_forall.
Variable P : list event -> Prop.
Hypothesis P_nil : P [].
Hypothesis P_app : ∀ tr1 tr2, P tr1 → P tr2 → P (tr1 ++ tr2).
Hypothesis P_step :
  ∀ s a s' tr, inv s → step s a = Some (s', tr) → P tr.

Lemma exec_forall (l : list action) (s s' : sys) (tr : list event) :
  inv s -> exec s l = Some (s', tr) -> P tr.
Proof.
  revert s tr. induction l as [|a l IH]; intros s tr Hs Hl; simpl in Hl.
  - by injection Hl as <- <-.
  - destruct (step_inv s a Hs) as (s1 & tr1 & Hstep & Hs1).
    rewrite Hstep in Hl; simpl in Hl.
    destruct (exec s1 l) as [[s2 tr2]|] eqn:Hl2; [|done].
    simpl in Hl. injection Hl as <- <-.
    apply P_app; [by apply (P_step s a s1) | by apply (IH s1)].
Qed.
End Trace_forall.

(** *** Task2's counter and the timeouts in a row *)

Lemma consecutive_timeouts_app (acc : Z) (tr1 tr2 : list event) :
  consecutive_timeouts acc (tr1 ++ tr2) =
  consecutive_timeouts (consecutive_timeouts acc tr1) tr2.
Proof.
  revert acc. induction tr1 as [|e tr1 IH]; intros acc; [done|].
  destruct e as [[]| | | | | | |]; simpl; apply IH.
Qed.

Lemma step_counts_timeouts (s : sys) (a : action) (s' : sys)
    (tr : list event) :
  inv s -> step s a = Some (s', tr) ->
  consecutive_timeouts (timeout s) tr = timeout s'.
Proof. intros Hs Hstep. step_paths s a Hs Hstep; reflexivity. Qed.

Lemma run_counts_timeouts (l : list action) (s : sys) (tr : list event) :
  exec boot l = Some (s, tr) -> consecutive_timeouts 0 tr = timeout s.
Proof.
  apply (exec_fold consecutive_timeouts timeout); [done | | | apply inv_boot].
  - apply consecutive_timeouts_app.
  - apply step_counts_timeouts.
Qed.

Lemma step_logged_attempts (s : sys) (a : action) (s' : sys)
    (tr : list event) :
  inv s -> step s a = Some (s', tr) ->
  Forall (fun n => 1 <= n <= 5) (logged_attempts tr).
Proof.
  intros Hs Hstep.
  step_paths s a Hs Hstep; simpl;
    repeat (apply Forall_cons; split; [lia|]); by apply Forall_nil.
Qed.

Lemma run_logged_attempts (l : list action) (s : sys) (tr : list event) :
  exec boot l = Some (s, tr) ->
  Forall (fun n => 1 <= n <= 5) (logged_attempts tr).
Proof.
  apply (exec_forall
           (fun tr => Forall (fun n => 1 <= n <= 5) (logged_attempts tr)));
    [by apply Forall_nil | | apply step_logged_attempts | apply inv_boot].
  intros tr1 tr2 H1 H2. unfold logged_attempts. rewrite omap_app.
  by apply Forall_app.
Qed.

(** *** The event group and the signals since the last observation *)

Lemma signalled_since_observation_app (acc : Z) (tr1 tr2 : list event) :
  signalled_since_observation acc (tr1 ++ tr2) =
  signalled_since_observation (signalled_since_observation acc tr1) tr2.
Proof.
  revert acc. induction tr1 as [|e tr1 IH]; intros acc; [done|].
  destruct e; simpl; apply IH.
Qed.

Lemma step_signalled (s : sys) (a : action) (s' : sys) (tr : list event) :
  inv s -> step s a = Some (s', tr) ->
  signalled_since_observation (event_supervisor s) tr = event_supervisor s'.
Proof. intros Hs Hstep. step_paths s a Hs Hstep; reflexivity. Qed.

Lemma run_signalled (l : list action) (s : sys) (tr : list event) :
  exec boot l = Some (s, tr) ->
  signalled_since_observation 0 tr = event_supervisor s.
Proof.
  apply (exec_fold signalled_since_observation event_supervisor);
    [done | | | apply inv_boot].
  - apply signalled_since_observation_app.
  - apply step_signalled.
Qed.

(** *** The items Task1 creates *)

(** An iteration of Task1 creates one item, with id and valor equal to
    [seq], and increments [seq] -- unless its malloc failed, when it creates
    nothing and leaves [seq] alone. *)
Lemma Task1_created (s : sys) (ok : bool) :
  created (Task1 s ok).2 = (if ok then [mk_dado (seq s) (seq s)] else []) ∧
  seq (Task1 s ok).1 = (if ok then int_succ (seq s) else seq s).
Proof.
  unfold Task1. destruct ok; simpl; [|done].
  by destruct (xQueueSend _ _) as [q []].
Qed.

Lemma step_created (s : sys) (a : action) (s' : sys) (tr : list event) :
  inv s -> step s a = Some (s', tr) ->
  (created tr = [] ∧ seq s' = seq s) ∨
  (created tr = [mk_dado (seq s) (seq s)] ∧ seq s' = int_succ (seq s)).
Proof. intros Hs Hstep. step_paths s a Hs Hstep; auto. Qed.

(** The k-th item created in a run (counting from 0) has id and valor
    [seq + k], reduced to the range of [int]. *)
Lemma exec_created (l : list action) (s s' : sys) (tr : list event) :
  inv s -> int_wrap (seq s) = seq s -> exec s l = Some (s', tr) ->
  seq s' = int_wrap (seq s + Z.of_nat (length (created tr))) ∧
  ∀ (k : nat) (d : dado_t), created tr !! k = Some d →
    d = mk_dado (int_wrap (seq s + Z.of_nat k))
                (int_wrap (seq s + Z.of_nat k)).
Proof.
  revert s tr. induction l as [|a l IH]; intros s tr Hs Hseq Hl; simpl in Hl.
  - injection Hl as <- <-. simpl. by rewrite Z.add_0_r.
  - destruct (step_inv s a Hs) as (s1 & tr1 & Hstep & Hs1).
    rewrite Hstep in Hl; simpl in Hl.
    destruct (exec s1 l) as [[s2 tr2]|] eqn:Hl2; [|done].
    simpl in Hl. injection Hl as <- <-. rewrite created_app.
    destruct (step_created s a s1 tr1 Hs Hstep) as [[-> Hs1seq]|[-> Hs1seq]].
    + simpl. rewrite <- Hs1seq.
      apply IH; [done | by rewrite Hs1seq | done].
    + assert (Hseq1 : int_wrap (seq s1) = seq s1).
      { rewrite Hs1seq. unfold int_succ. apply int_wrap_idemp. }
      destruct (IH s1 tr2 Hs1 Hseq1 Hl2) as [H1 H2].
      rewrite Hs1seq in H1, H2. unfold int_succ in H1, H2. split.
      * rewrite H1, int_wrap_add. f_equal. simpl length. lia.
      * intros [|k] d Hd; simpl in Hd.
        -- injection Hd as <-. by rewrite Z.add_0_r, Hseq.
        -- rewrite (H2 k d Hd), int_wrap_add.
           by replace (seq s + 1 + Z.of_nat k) with (seq s + Z.of_nat (S k))
             by lia.
Qed.

(** Task1 alone, its malloc succeeding every time: one item per
    iteration. *)
Lemma exec_Task1_alone (n : nat) (s : sys) :
  ∃ s' tr, exec s (replicate n (run_Task1 true)) = Some (s', tr) ∧
           length (created tr) = n.
Proof.
  revert s. induction n as [|n IH]; intros s; simpl.
  - by exists s, [].
  - destruct (Task1 s true) as [s1 tr1] eqn:H1. simpl.
    destruct (IH s1) as (s2 & tr2 & -> & Hlen). simpl.
    eexists _, _. split; [done|].
    rewrite created_app, length_app, Hlen.
    destruct (Task1_created s true) as [Hc _]. rewrite H1 in Hc. simpl in Hc.
    by rewrite Hc.
Qed.

(** *** The channel *)

(** Whatever is done to the queue of length 1, it keeps its capacity and
    never holds more than one item. *)
Lemma channel_step_single_slot (q : Queue_t) (op : channel_op) :
  uxLength q = 1%nat -> (uxMessagesWaiting q <= 1)%nat ->
  uxLength (channel_step q op) = 1%nat ∧
  (uxMessagesWaiting (channel_step q op) <= 1)%nat.
Proof.
  destruct q as [cap items]. unfold uxMessagesWaiting; simpl.
  intros -> Hlen. destruct op as [item | |]; simpl.
  - unfold xQueueSend, uxMessagesWaiting; simpl.
    destruct items as [|x [|y items]]; simpl in *; [done | done | lia].
  - unfold xQueueReceive; simpl.
    destruct items as [|x items]; simpl in *; [done|]. split; [done | lia].
  - split; [done | lia].
Qed.

Lemma channel_run_single_slot (ops : list channel_op) (q : Queue_t) :
  uxLength q = 1%nat -> (uxMessagesWaiting q <= 1)%nat ->
  uxLength (channel_run q ops) = 1%nat ∧
  (uxMessagesWaiting (channel_run q ops) <= 1)%nat.
Proof.
  revert q. induction ops as [|op ops IH]; intros q Hcap Hlen; [done|].
  simpl. destruct (channel_step_single_slot q op Hcap Hlen).
  by apply IH.
Qed.

(** Preempted by nobody, an iteration of Task2 is the plain one. *)
Lemma Task2_preempted_by_none (s : sys) (ok : bool) :
  Task2_preempted s [] ok = Task2 s ok.
Proof.
  unfold Task2_preempted, Task2.
  destruct (xQueueReceive (fila s)) as [q [item|]].
  - cbn [other_exec fila].
    change (Task2_received (mk_sys (heap s) q (event_supervisor s) (seq s)
                              item (timeout s)) q item ok)
      with (Task2_received s q item ok).
    by destruct (Task2_received s q item ok) as [[s3 tr3]|].
  - cbn [other_exec]. by destruct (Task2_timed_out s).
Qed.

(** ** The channel: non-blocking send *)

(** C1: after any sequence of sends, receives and resets on the queue of
    length 1, [xQueueSend] returns [pdTRUE] iff the queue is empty, and then
    the queue holds exactly the item sent; otherwise it returns at once,
    the queue is what it was, one item resident, and the item stays with
    the caller.  In Task1, from any state the tasks can reach: with the
    queue empty the new block goes into the queue and is not freed; with
    the queue occupied the queue and the resident block are untouched and
    Task1 itself frees the new block, once. *)
Theorem try_send_iff_empty (ops : list channel_op) (item : dado_ptr) :
  let q := channel_run (mk_queue 1 []) ops in
  let '(q', sent) := xQueueSend q item in
  (sent = true ↔ uxItems q = []) ∧
  (sent = true → uxItems q' = [item] ∧ uxMessagesWaiting q' = 1%nat) ∧
  (sent = false → q' = q ∧ ∃ resident, uxItems q = [resident]) ∧
  ∀ l s tr, exec boot l = Some (s, tr) →
    let dados := fresh (dom (heap s)) in
    let '(s', tr') := Task1 s true in
    (Task1_sent s true = true ↔ uxItems (fila s) = []) ∧
    (Task1_sent s true = true →
       uxItems (fila s') = [Some dados] ∧
       heap s' = {[dados := mk_dado (seq s) (seq s)]} ∧
       count_if is_free tr' = 0%nat ∧
       printf (TX_enviado (seq s) (seq s)) ∈ tr') ∧
    (Task1_sent s true = false →
       fila s' = fila s ∧ heap s' = heap s ∧
       occurrences (ev_free dados) tr' = 1%nat ∧
       count_if is_free tr' = 1%nat ∧
       printf (FILA_descartado (seq s) (seq s)) ∈ tr').
Proof.
  intros q.
  assert (H0 : (uxMessagesWaiting (mk_queue 1 []) <= 1)%nat)
    by (unfold uxMessagesWaiting; simpl; lia).
  destruct (channel_run_single_slot ops (mk_queue 1 []) eq_refl H0)
    as [Hcap Hlen].
  fold q in Hcap, Hlen. clearbody q.
  assert (Htask1 : ∀ l s tr, exec boot l = Some (s, tr) →
    let dados := fresh (dom (heap s)) in
    let '(s', tr') := Task1 s true in
    (Task1_sent s true = true ↔ uxItems (fila s) = []) ∧
    (Task1_sent s true = true →
       uxItems (fila s') = [Some dados] ∧
       heap s' = {[dados := mk_dado (seq s) (seq s)]} ∧
       count_if is_free tr' = 0%nat ∧
       printf (TX_enviado (seq s) (seq s)) ∈ tr') ∧
    (Task1_sent s true = false →
       fila s' = fila s ∧ heap s' = heap s ∧
       occurrences (ev_free dados) tr' = 1%nat ∧
       count_if is_free tr' = 1%nat ∧
       printf (FILA_descartado (seq s) (seq s)) ∈ tr')).
  { intros l s tr Hl dados.
    pose proof (run_inv l s tr Hl) as Hs.
    unfold Task1_sent, Task1. rewrite malloc_true. fold dados.
    destruct s as [h [cap its] e sq dr t].
    destruct Hs as (Hc & Hq & _); simpl in *. subst cap.
    unfold xQueueSend, uxMessagesWaiting; simpl.
    destruct Hq as [[-> ->] | (p & d & -> & ->)]; simpl.
    - split; [done|]. split; [|done]. intros _.
      split; [done|]. split; [by rewrite insert_empty|].
      split; [done | trace_mem].
    - split; [split; intros; discriminate|]. split; [done|]. intros _.
      split; [done|].
      split; [apply delete_insert_id, malloc_not_live|].
      split; [unfold occurrences; simpl; by rewrite bool_decide_eq_true_2|].
      split; [done | trace_mem]. }
  destruct q as [cap items]. unfold uxMessagesWaiting in Hlen.
  simpl in Hcap, Hlen. subst cap.
  unfold xQueueSend, uxMessagesWaiting; simpl.
  destruct items as [|x [|y items]]; simpl in *; [ | | lia].
  - split; [done|]. split; [done|]. split; [done|]. exact Htask1.
  - split; [split; intros; discriminate|]. split; [done|].
    split; [|exact Htask1]. intros _. split; [done|]. by exists x.
Qed.

(** ** Task1: the sequence of ids *)

(** Task1 runs 2^31 iterations, each malloc succeeding: the item created
    last but one has id [INT_MAX], and the one created after it has id
    [INT_MIN]. *)
Lemma ids_not_increasing_past_INT_MAX :
  ∃ s tr a b,
    exec boot (replicate (Z.to_nat (2 ^ 31)) (run_Task1 true)) = Some (s, tr) ∧
    created tr !! Z.to_nat (2 ^ 31 - 2) = Some a ∧
    created tr !! Z.to_nat (2 ^ 31 - 1) = Some b ∧
    id a = INT_MAX ∧ id b = INT_MIN ∧ ¬ id a < id b.
Proof.
  destruct (exec_Task1_alone (Z.to_nat (2 ^ 31)) boot) as (s & tr & Hl & Hlen).
  destruct (exec_created _ boot s tr inv_boot eq_refl Hl) as [_ Hk].
  assert (Ha : is_Some (created tr !! Z.to_nat (2 ^ 31 - 2)))
    by (apply lookup_lt_is_Some; lia).
  assert (Hb : is_Some (created tr !! Z.to_nat (2 ^ 31 - 1)))
    by (apply lookup_lt_is_Some; lia).
  destruct Ha as [a Ha], Hb as [b Hb].
  exists s, tr, a, b. split; [done|]. split; [done|]. split; [done|].
  rewrite (Hk _ a Ha), (Hk _ b Hb). simpl id.
  rewrite !Z2Nat.id by lia.
  split; [reflexivity|]. split; [reflexivity|].
  intros Hlt. vm_compute in Hlt. discriminate.
Qed.

(** C4, amended: in every run, whatever the schedule and however many
    sends fail, every item created has valor = id; and as long as no more
    than INT_MAX items have been created, the k-th item created (k = 1, 2,
    ...) has id k: the ids are 1, 2, 3, ... with no repeat and no gap. *)
Theorem generated_ids_sequential (l : list action) (s : sys)
    (tr : list event) :
  exec boot l = Some (s, tr) ->
  Forall (fun d => valor d = id d) (created tr) ∧
  (Z.of_nat (length (created tr)) <= INT_MAX ->
   created tr =
     (fun k => mk_dado k k) <$> seqZ 1 (Z.of_nat (length (created tr)))).
Proof.
  intros Hl.
  destruct (exec_created l boot s tr inv_boot eq_refl Hl) as [_ Hk].
  split.
  - apply Forall_lookup. intros k d Hd. by rewrite (Hk k d Hd).
  - intros Hlen. apply list_eq. intros i.
    rewrite list_lookup_fmap.
    destruct (decide (i < length (created tr))%nat) as [Hi|Hi].
    + rewrite lookup_seqZ_lt by lia. simpl.
      destruct (proj2 (lookup_lt_is_Some (created tr) i) Hi) as [d Hd].
      rewrite Hd, (Hk i d Hd). simpl seq.
      rewrite int_wrap_in_range by (unfold INT_MIN, INT_MAX in *; lia).
      done.
    + rewrite lookup_seqZ_ge by lia. simpl.
      apply lookup_ge_None. lia.
Qed.

Lemma generated_ids_sequential_witness :
  exec boot [run_Task1 true; run_Task1 true; run_Task1 false;
             run_Task2 true; run_Task1 true] =
    Some (mk_sys {[1%positive := mk_dado 3 3]}
            (mk_queue 1 [Some 1%positive]) 3 4 None 0,
          [ev_malloc (Some 1%positive); ev_set_bits BIT_TASK1_OK;
           printf (TX_enviado 1 1); esp_task_wdt_reset hTask1;
           vTaskDelay 1000;
           ev_malloc (Some 2%positive); printf (FILA_descartado 2 2);
           ev_free 2%positive; esp_task_wdt_reset hTask1; vTaskDelay 1000;
           ev_malloc None; printf ERRO_alocacao_Task1; vTaskDelay 1000;
           ev_malloc (Some 2%positive); printf (RX_recebido 1 1);
           ev_free 2%positive; ev_free 1%positive;
           ev_set_bits BIT_TASK2_OK; esp_task_wdt_reset hTask2;
           ev_malloc (Some 1%positive); ev_set_bits BIT_TASK1_OK;
           printf (TX_enviado 3 3); esp_task_wdt_reset hTask1;
           vTaskDelay 1000]) ∧
  3 <= INT_MAX ∧
  [mk_dado 1 1; mk_dado 2 2; mk_dado 3 3] =
    (fun k => mk_dado k k) <$> seqZ 1 3.
Proof.
  split; [reflexivity|]. split; [unfold INT_MAX; lia|].
  refine (proj2 (generated_ids_sequential
           [run_Task1 true; run_Task1 true; run_Task1 false;
            run_Task2 true; run_Task1 true] _ _ eq_refl) _).
  unfold INT_MAX. simpl. lia.
Defined.

(** ** Task2: the retry counter *)

(** C2: when an iteration of Task2 starts, its counter is the number of
    timeouts in a row so far.  A successful receive puts it back to 0.  On a
    timeout, which is then the n-th in a row, the ALERTA line is printed iff
    n = 3, and that iteration changes nothing but the counter; the queue is
    reset and RECUPERAÇÃO printed iff n = 5, and that iteration leaves the
    counter at 0; any other timeout leaves the counter at n. *)
Theorem Task2_retry_counter_escalation (l : list action) (s : sys)
    (tr : list event) (ok : bool) :
  exec boot l = Some (s, tr) ->
  let n := consecutive_timeouts 0 tr + 1 in
  timeout s + 1 = n ∧
  ∃ s' tr', Task2 s ok = Some (s', tr') ∧
    match uxItems (fila s) with
    | _ :: _ => timeout s' = 0
    | [] =>
        (printf ALERTA_Task2 ∈ tr' ↔ n = 3) ∧
        (n = 3 → s' = mk_sys (heap s) (fila s) (event_supervisor s) (seq s)
                        (dados_recebidos s) 3) ∧
        (ev_queue_reset ∈ tr' ↔ n = 5) ∧
        (printf RECUPERACAO_fila ∈ tr' ↔ n = 5) ∧
        (n = 5 → timeout s' = 0 ∧ fila s' = xQueueReset (fila s)) ∧
        (n ≠ 5 → timeout s' = n ∧ fila s' = fila s)
    end.
Proof.
  intros Hl n.
  pose proof (run_inv l s tr Hl) as Hs.
  assert (Hn : timeout s + 1 = n)
    by (subst n; by rewrite (run_counts_timeouts l s tr Hl)).
  split; [done|]. rewrite <- Hn. clear Hn n.
  destruct (uxItems (fila s)) as [|item rest] eqn:Hitems.
  - exists (Task2_timed_out s).1, (Task2_timed_out s).2.
    rewrite Task2_empty by done.
    split; [by destruct (Task2_timed_out s)|].
    destruct Hs as (_ & _ & _ & Ht & _).
    rewrite Task2_timed_out_eq by done.
    destruct s as [h q e sq dr t]; simpl in *.
    counter_cases t Ht; simpl; split_and!; try split; intros; trace_mem.
  - destruct (inv_occupied s item rest Hs Hitems) as (p & d & -> & -> & Hh).
    rewrite (Task2_occupied s ok (Some p) []) by done.
    rewrite (Task2_received_live s _ p d)
      by (rewrite Hh; apply lookup_singleton_eq).
    by eexists _, _.
Qed.

Lemma Task2_retry_counter_escalation_witness :
  exec boot [run_Task2 true; run_Task2 true] =
    Some (mk_sys ∅ (mk_queue 1 []) 0 1 None 2,
          [printf (FILA_nenhum_dado 1 false);
           printf (FILA_nenhum_dado 2 true)]) ∧
  ∃ s' tr',
    Task2 (mk_sys ∅ (mk_queue 1 []) 0 1 None 2) true = Some (s', tr') ∧
    (printf ALERTA_Task2 ∈ tr' ↔ 3 = 3) ∧ timeout s' = 3.
Proof.
  split; [reflexivity|].
  destruct (Task2_retry_counter_escalation
              [run_Task2 true; run_Task2 true]
              (mk_sys ∅ (mk_queue 1 []) 0 1 None 2)
              [printf (FILA_nenhum_dado 1 false);
               printf (FILA_nenhum_dado 2 true)]
              true eq_refl)
    as (_ & s' & tr' & Hrun & Halerta & Hsame & _).
  exists s', tr'. split; [exact Hrun|]. split; [exact Halerta|].
  rewrite (Hsame eq_refl). reflexivity.
Defined.

(** C10: in every state that Task2 can start an iteration in, its counter
    is one of 0, 1, 2, 3, 4.  Within the iteration the counter is at most
    5: the value after the increment, which is the one every "nenhum dado"
    line logs, is between 1 and 5.  The iteration ends with the counter in
    0..4 again, and at 0 whenever it received an item or reset the queue. *)
Theorem Task2_counter_bounds (l : list action) (s : sys) (tr : list event)
    (ok : bool) :
  exec boot l = Some (s, tr) ->
  0 <= timeout s <= 4 ∧
  1 <= int_succ (timeout s) <= 5 ∧
  Forall (fun n => 1 <= n <= 5) (logged_attempts tr) ∧
  ∃ s' tr', Task2 s ok = Some (s', tr') ∧
    0 <= timeout s' <= 4 ∧
    Forall (fun n => n = int_succ (timeout s)) (logged_attempts tr') ∧
    (uxItems (fila s) ≠ [] → timeout s' = 0) ∧
    (ev_queue_reset ∈ tr' → timeout s' = 0).
Proof.
  intros Hl.
  pose proof (run_inv l s tr Hl) as Hs.
  assert (Ht : 0 <= timeout s <= 4) by apply Hs.
  split; [done|]. split.
  { rewrite int_succ_in_range by (unfold INT_MIN, INT_MAX; lia). lia. }
  split; [by apply (run_logged_attempts l s tr)|].
  destruct (Task2_inv s ok Hs) as (s' & tr' & Hrun & Hs').
  exists s', tr'. split; [done|]. split; [apply Hs'|].
  destruct (uxItems (fila s)) as [|item rest] eqn:Hitems.
  - rewrite Task2_empty in Hrun by done. injection Hrun as Hrun.
    rewrite Task2_timed_out_eq in Hrun by done. injection Hrun as <- <-.
    rewrite int_succ_in_range by (unfold INT_MIN, INT_MAX; lia).
    destruct s as [h q e sq dr t]; simpl in *.
    counter_cases t Ht; simpl; split_and!; intros;
      try (apply Forall_cons; split; [done|]; by apply Forall_nil);
      trace_mem.
  - destruct (inv_occupied s item rest Hs Hitems) as (p & d & -> & -> & Hh).
    rewrite (Task2_occupied s ok (Some p) []) in Hrun by done.
    rewrite (Task2_received_live s _ p d) in Hrun
      by (rewrite Hh; apply lookup_singleton_eq).
    injection Hrun as <- <-. simpl.
    split_and!; [destruct ok; by apply Forall_nil | done | done].
Qed.

Lemma Task2_counter_bounds_witness :
  exec boot [run_Task2 true; run_Task2 true; run_Task2 true; run_Task2 true]
  = Some (mk_sys ∅ (mk_queue 1 []) 0 1 None 4,
          [printf (FILA_nenhum_dado 1 false);
           printf (FILA_nenhum_dado 2 true);
           printf (FILA_nenhum_dado 3 true);
           printf ALERTA_Task2;
           printf (FILA_nenhum_dado 4 true)]) ∧
  1 <= int_succ 4 <= 5.
Proof.
  split; [reflexivity|].
  exact (proj1 (proj2 (Task2_counter_bounds
    [run_Task2 true; run_Task2 true; run_Task2 true; run_Task2 true]
    (mk_sys ∅ (mk_queue 1 []) 0 1 None 4)
    [printf (FILA_nenhum_dado 1 false);
     printf (FILA_nenhum_dado 2 true);
     printf (FILA_nenhum_dado 3 true);
     printf ALERTA_Task2;
     printf (FILA_nenhum_dado 4 true)]
    true eq_refl))).
Defined.

(** ** Watchdog feeds *)

(** C3: the watchdog is not fed on every path.  An iteration of Task1 whose
    malloc fails leaves through [continue] before [esp_task_wdt_reset], and
    the timeout branch of Task2 has no [esp_task_wdt_reset] at all: neither
    iteration feeds the watchdog, and five timeouts in a row pass without a
    single feed by Task2.  The other paths feed it exactly once: Task1
    after a send or a drop, Task2 after a receive, Task3 always. *)
Theorem watchdog_feeds_per_iteration (s : sys) (ok : bool) :
  count_if (is_wdt_reset hTask1) (Task1 s false).2 = 0%nat ∧
  count_if (is_wdt_reset hTask2) (Task2_timed_out s).2 = 0%nat ∧
  Task2 boot ok = Some (Task2_timed_out boot) ∧
  (∃ s5 tr5,
     exec boot (replicate 5 (run_Task2 ok)) = Some (s5, tr5) ∧
     count_if (is_wdt_reset hTask2) tr5 = 0%nat ∧
     printf RECUPERACAO_fila ∈ tr5) ∧
  count_if (is_wdt_reset hTask1) (Task1 s true).2 = 1%nat ∧
  (∀ q p d, heap s !! p = Some d →
     ∃ s' tr', Task2_received s q (Some p) ok = Some (s', tr') ∧
               count_if (is_wdt_reset hTask2) tr' = 1%nat) ∧
  count_if (is_wdt_reset hTask3) (Task3 s).2 = 1%nat.
Proof.
  split_and!.
  - reflexivity.
  - unfold Task2_timed_out.
    destruct (int_succ (timeout s) >=? 5), (int_succ (timeout s) =? 3);
      reflexivity.
  - reflexivity.
  - eexists _, _. split; [reflexivity|]. split; [reflexivity | trace_mem].
  - unfold Task1. rewrite malloc_true.
    destruct (xQueueSend _ _) as [q []]; reflexivity.
  - intros q p d Hp. rewrite (Task2_received_live s q p d) by done.
    eexists _, _. split; [done|]. by destruct ok.
  - unfold Task3. by destruct (xEventGroupWaitBits _ _ _ _).
Qed.

(** ** Liveness signals *)

(** C7: an iteration of Task1 sets [BIT_TASK1_OK] iff its send succeeded,
    and then once; on a drop or a failed malloc the event group is left as
    it was.  An iteration of Task2 sets [BIT_TASK2_OK] iff it received an
    item, and then once; on a timeout, with or without recovery, the event
    group is left as it was.  Neither task sets the other one's bit. *)
Theorem liveness_bits_only_on_success (l : list action) (s : sys)
    (tr : list event) (ok : bool) :
  exec boot l = Some (s, tr) ->
  (let '(s1, tr1) := Task1 s ok in
   (ev_set_bits BIT_TASK1_OK ∈ tr1 ↔ Task1_sent s ok = true) ∧
   occurrences (ev_set_bits BIT_TASK1_OK) tr1 =
     (if Task1_sent s ok then 1%nat else 0%nat) ∧
   occurrences (ev_set_bits BIT_TASK2_OK) tr1 = 0%nat ∧
   event_supervisor s1 =
     (if Task1_sent s ok
      then xEventGroupSetBits (event_supervisor s) BIT_TASK1_OK
      else event_supervisor s)) ∧
  (∃ s2 tr2, Task2 s ok = Some (s2, tr2) ∧
   (ev_set_bits BIT_TASK2_OK ∈ tr2 ↔ Task2_receives s = true) ∧
   occurrences (ev_set_bits BIT_TASK2_OK) tr2 =
     (if Task2_receives s then 1%nat else 0%nat) ∧
   occurrences (ev_set_bits BIT_TASK1_OK) tr2 = 0%nat ∧
   event_supervisor s2 =
     (if Task2_receives s
      then xEventGroupSetBits (event_supervisor s) BIT_TASK2_OK
      else event_supervisor s)).
Proof.
  intros Hl.
  pose proof (run_inv l s tr Hl) as Hs.
  split.
  - unfold Task1, Task1_sent. destruct (malloc (heap s) ok) as [dados|].
    + destruct (xQueueSend _ _) as [q []]; simpl;
        (split_and!; [split; intros; trace_mem | done..]).
    + simpl. split_and!; [split; intros; trace_mem | done..].
  - destruct (uxItems (fila s)) as [|item rest] eqn:Hitems.
    + exists (Task2_timed_out s).1, (Task2_timed_out s).2.
      rewrite Task2_empty by done.
      split; [by destruct (Task2_timed_out s)|].
      unfold Task2_receives, xQueueReceive. rewrite Hitems. simpl.
      destruct Hs as (_ & _ & _ & Ht & _).
      rewrite Task2_timed_out_eq by done.
      destruct s as [h q e sq dr t]; simpl in *.
      counter_cases t Ht; simpl;
        (split_and!; [split; intros; trace_mem | done..]).
    + destruct (inv_occupied s item rest Hs Hitems) as (p & d & -> & -> & Hh).
      rewrite (Task2_occupied s ok (Some p) []) by done.
      rewrite (Task2_received_live s _ p d)
        by (rewrite Hh; apply lookup_singleton_eq).
      eexists _, _. split; [done|].
      unfold Task2_receives, xQueueReceive. rewrite Hitems. simpl.
      destruct ok; simpl;
        (split_and!; [split; intros; trace_mem | done..]).
Qed.

Lemma liveness_bits_only_on_success_witness :
  exec boot [run_Task1 true] =
    Some (mk_sys {[1%positive := mk_dado 1 1]}
            (mk_queue 1 [Some 1%positive]) 1 2 None 0,
          [ev_malloc (Some 1%positive); ev_set_bits BIT_TASK1_OK;
           printf (TX_enviado 1 1); esp_task_wdt_reset hTask1;
           vTaskDelay 1000]) ∧
  ∃ s2 tr2,
    Task2 (mk_sys {[1%positive := mk_dado 1 1]}
             (mk_queue 1 [Some 1%positive]) 1 2 None 0) false
    = Some (s2, tr2) ∧
    occurrences (ev_set_bits BIT_TASK2_OK) tr2 = 1%nat.
Proof.
  split; [reflexivity|].
  destruct (liveness_bits_only_on_success [run_Task1 true]
              (mk_sys {[1%positive := mk_dado 1 1]}
                 (mk_queue 1 [Some 1%positive]) 1 2 None 0)
              [ev_malloc (Some 1%positive); ev_set_bits BIT_TASK1_OK;
               printf (TX_enviado 1 1); esp_task_wdt_reset hTask1;
               vTaskDelay 1000]
              false eq_refl)
    as (_ & s2 & tr2 & Hrun & _ & Hocc & _).
  exists s2, tr2. split; [exact Hrun | exact Hocc].
Defined.

(** ** Task2: consuming a received item *)

(** Task1 has sent item 1; Task2 receives it while its malloc of the
    working copy fails: the consumer bit is set and the original is freed,
    but no RX line is printed. *)
Lemma RX_not_logged_when_copy_allocation_fails :
  let s := mk_sys {[1%positive := mk_dado 1 1]}
             (mk_queue 1 [Some 1%positive]) 1 2 None 0 in
  let tr' := [ev_malloc None; printf ERRO_alocacao_receptor;
              ev_free 1%positive; ev_set_bits BIT_TASK2_OK;
              esp_task_wdt_reset hTask2] in
  exec boot [run_Task1 true] =
    Some (s, [ev_malloc (Some 1%positive); ev_set_bits BIT_TASK1_OK;
              printf (TX_enviado 1 1); esp_task_wdt_reset hTask1;
              vTaskDelay 1000]) ∧
  Task2_receives s = true ∧
  Task2 s false = Some (mk_sys ∅ (mk_queue 1 []) 3 2 None 0, tr') ∧
  occurrences (ev_set_bits BIT_TASK2_OK) tr' = 1%nat ∧
  count_if is_RX tr' = 0%nat ∧
  count_if is_RX tr' ≠ 1%nat.
Proof.
  split; [reflexivity|]. split; [reflexivity|].
  split; [reflexivity|]. split; [reflexivity|]. split; [reflexivity|].
  discriminate.
Qed.

(** C9, amended: on every successful receive the consumer bit is set
    exactly once and the original item is freed exactly once, whether or
    not the working copy could be allocated.  When it could, the RX line
    with the item's valor and id is printed exactly once and the copy is
    allocated and freed exactly once (two frees in all); when it could not,
    the ERRO line is printed once and no RX line at all (one free).  In
    both cases no block is live afterwards. *)
Theorem Task2_consumes_received_item (l : list action) (s : sys)
    (tr : list event) (ok : bool) :
  exec boot l = Some (s, tr) ->
  Task2_receives s = true ->
  ∃ p d s' tr',
    uxItems (fila s) = [Some p] ∧ heap s !! p = Some d ∧
    Task2 s ok = Some (s', tr') ∧
    occurrences (ev_set_bits BIT_TASK2_OK) tr' = 1%nat ∧
    occurrences (ev_free p) tr' = 1%nat ∧
    heap s' = ∅ ∧ uxItems (fila s') = [] ∧ dados_recebidos s' = None ∧
    if ok
    then
      let tmp := fresh (dom (heap s)) in
      tmp ≠ p ∧
      count_if is_RX tr' = 1%nat ∧
      occurrences (printf (RX_recebido (valor d) (id d))) tr' = 1%nat ∧
      occurrences (printf ERRO_alocacao_receptor) tr' = 0%nat ∧
      occurrences (ev_malloc (Some tmp)) tr' = 1%nat ∧
      occurrences (ev_free tmp) tr' = 1%nat ∧
      count_if is_free tr' = 2%nat
    else
      count_if is_RX tr' = 0%nat ∧
      occurrences (printf ERRO_alocacao_receptor) tr' = 1%nat ∧
      count_if is_free tr' = 1%nat.
Proof.
  intros Hl Hrecv.
  pose proof (run_inv l s tr Hl) as Hs.
  unfold Task2_receives, xQueueReceive in Hrecv.
  destruct (uxItems (fila s)) as [|item rest] eqn:Hitems; [done|].
  destruct (inv_occupied s item rest Hs Hitems) as (p & d & -> & -> & Hh).
  assert (Hp : heap s !! p = Some d)
    by (rewrite Hh; apply lookup_singleton_eq).
  assert (Hne : fresh (dom (heap s)) ≠ p).
  { intros Heq. apply (is_fresh (dom (heap s))).
    rewrite Heq. apply elem_of_dom. eauto. }
  exists p, d. eexists _, _.
  split; [done|]. split; [done|].
  rewrite (Task2_occupied s ok (Some p) []) by done.
  rewrite (Task2_received_live s _ p d) by done.
  split; [done|]. simpl.
  split; [by destruct ok|].
  split.
  { unfold occurrences. destruct ok; simpl; [|by rewrite bool_decide_eq_true_2].
    rewrite bool_decide_eq_false_2 by congruence.
    by rewrite bool_decide_eq_true_2. }
  split; [rewrite Hh; apply delete_singleton_eq|].
  split; [done|]. split; [done|].
  destruct ok; simpl.
  - split; [done|]. split; [done|].
    split; [unfold occurrences; simpl; by rewrite bool_decide_eq_true_2|].
    split; [done|].
    split; [unfold occurrences; simpl; by rewrite bool_decide_eq_true_2|].
    split; [|done].
    unfold occurrences; simpl. rewrite bool_decide_eq_true_2 by done.
    rewrite bool_decide_eq_false_2; [done | congruence].
  - done.
Qed.

Lemma Task2_consumes_received_item_witness :
  exec boot [run_Task1 true] =
    Some (mk_sys {[1%positive := mk_dado 1 1]}
            (mk_queue 1 [Some 1%positive]) 1 2 None 0,
          [ev_malloc (Some 1%positive); ev_set_bits BIT_TASK1_OK;
           printf (TX_enviado 1 1); esp_task_wdt_reset hTask1;
           vTaskDelay 1000]) ∧
  Task2_receives (mk_sys {[1%positive := mk_dado 1 1]}
                    (mk_queue 1 [Some 1%positive]) 1 2 None 0) = true ∧
  ∃ s' tr',
    Task2 (mk_sys {[1%positive := mk_dado 1 1]}
             (mk_queue 1 [Some 1%positive]) 1 2 None 0) true
    = Some (s', tr') ∧
    occurrences (ev_set_bits BIT_TASK2_OK) tr' = 1%nat ∧ heap s' = ∅.
Proof.
  split; [reflexivity|]. split; [reflexivity|].
  destruct (Task2_consumes_received_item [run_Task1 true]
              (mk_sys {[1%positive := mk_dado 1 1]}
                 (mk_queue 1 [Some 1%positive]) 1 2 None 0)
              [ev_malloc (Some 1%positive); ev_set_bits BIT_TASK1_OK;
               printf (TX_enviado 1 1); esp_task_wdt_reset hTask1;
               vTaskDelay 1000]
              true eq_refl eq_refl)
    as (p & d & s' & tr' & _ & _ & Hrun & Hocc & _ & Hheap & _).
  exists s', tr'. split; [exact Hrun|]. split; [exact Hocc | exact Hheap].
Defined.

(** ** Task3: the supervisor's report *)

(** C6: an iteration of Task3 reports on the value of the event group it
    observes: "Sistema OK" when both bits are set, "apenas Task1" when only
    bit 0 is, "apenas Task2" when only bit 1 is, "FALHA" when neither is.
    Setting one bit never changes the other.  The observation leaves both
    bits clear, so an iteration that follows with no signal in between
    reports "FALHA". *)
Theorem Task3_classification (s : sys) :
  let e := event_supervisor s in
  (Task3 s).2 =
    [ev_wait_bits e;
     printf (match Z.testbit e 0, Z.testbit e 1 with
             | true, true => SUP_ok
             | true, false => SUP_apenas_Task1
             | false, true => SUP_apenas_Task2
             | false, false => FALHA_nenhuma
             end);
     esp_task_wdt_reset hTask3;
     vTaskDelay 2000] ∧
  Z.testbit (xEventGroupSetBits e BIT_TASK1_OK) 0 = true ∧
  Z.testbit (xEventGroupSetBits e BIT_TASK1_OK) 1 = Z.testbit e 1 ∧
  Z.testbit (xEventGroupSetBits e BIT_TASK2_OK) 1 = true ∧
  Z.testbit (xEventGroupSetBits e BIT_TASK2_OK) 0 = Z.testbit e 0 ∧
  Z.testbit (event_supervisor (Task3 s).1) 0 = false ∧
  Z.testbit (event_supervisor (Task3 s).1) 1 = false ∧
  (Task3 (Task3 s).1).2 =
    [ev_wait_bits (event_supervisor (Task3 s).1);
     printf FALHA_nenhuma;
     esp_task_wdt_reset hTask3;
     vTaskDelay 2000].
Proof.
  intros e. subst e.
  assert (Htrace : ∀ s0, (Task3 s0).2 =
    [ev_wait_bits (event_supervisor s0);
     printf (Task3_report (event_supervisor s0));
     esp_task_wdt_reset hTask3; vTaskDelay 2000]).
  { intros s0. unfold Task3.
    pose proof (Task3_wait_bits (event_supervisor s0)) as Hw.
    destruct (xEventGroupWaitBits _ _ _ _) as [bits e'].
    destruct Hw as (-> & _). done. }
  assert (Hclear : Z.testbit (event_supervisor (Task3 s).1) 0 = false ∧
                   Z.testbit (event_supervisor (Task3 s).1) 1 = false).
  { unfold Task3.
    pose proof (Task3_wait_bits (event_supervisor s)) as Hw.
    destruct (xEventGroupWaitBits _ _ _ _) as [bits e'].
    destruct Hw as (_ & H0 & H1 & _). done. }
  destruct Hclear as [H0 H1].
  split; [by rewrite Htrace, Task3_report_bits|].
  unfold xEventGroupSetBits, BIT_TASK1_OK, BIT_TASK2_OK.
  rewrite !Z.lor_spec.
  change (Z.testbit (Z.shiftl 1 0) 0) with true.
  change (Z.testbit (Z.shiftl 1 0) 1) with false.
  change (Z.testbit (Z.shiftl 1 1) 0) with false.
  change (Z.testbit (Z.shiftl 1 1) 1) with true.
  rewrite !orb_true_r, !orb_false_r.
  split_and!; try done.
  by rewrite Htrace, Task3_report_bits, H0, H1.
Qed.

(** ** The supervisor's observation *)

(** C5: whatever the tasks did before, the bits that the supervisor's
    [xEventGroupWaitBits] returns are exactly those set since its previous
    observation: none that was not set since, none missing.  The call
    clears exactly the bits it returns and leaves the group empty, so an
    observation that follows with no signal in between returns nothing;
    and when nothing was set since the previous observation (the wait
    times out) the call returns no bit. *)
Theorem observe_and_clear_exact (l : list action) (s : sys)
    (tr : list event) :
  exec boot l = Some (s, tr) ->
  let pending := signalled_since_observation 0 tr in
  let mask := Z.lor BIT_TASK1_OK BIT_TASK2_OK in
  let '(returned, after) :=
    xEventGroupWaitBits (event_supervisor s) mask true false in
  returned = pending ∧
  after = Z.land (event_supervisor s) (Z.lnot returned) ∧
  after = 0 ∧
  (pending = 0 → returned = 0) ∧
  xEventGroupWaitBits after mask true false = (0, 0) ∧
  (Task3 s).1 = mk_sys (heap s) (fila s) 0 (seq s) (dados_recebidos s)
                  (timeout s) ∧
  (Task3 s).2 = [ev_wait_bits pending; printf (Task3_report pending);
                 esp_task_wdt_reset hTask3; vTaskDelay 2000].
Proof.
  intros Hl pending mask.
  pose proof (run_inv l s tr Hl) as Hs.
  assert (Hp : pending = event_supervisor s)
    by apply (run_signalled l s tr Hl).
  assert (He : 0 <= event_supervisor s <= 3) by apply Hs.
  unfold Task3. subst mask. rewrite Task3_wait_clears by done.
  rewrite Hp. split_and!; try done.
  by destruct (supervisor_bits_cases _ He) as [->|[->|[->| ->]]].
Qed.

Lemma observe_and_clear_exact_witness :
  exec boot [run_Task1 true; run_Task2 true] =
    Some (mk_sys ∅ (mk_queue 1 []) 3 2 None 0,
          [ev_malloc (Some 1%positive); ev_set_bits BIT_TASK1_OK;
           printf (TX_enviado 1 1); esp_task_wdt_reset hTask1;
           vTaskDelay 1000;
           ev_malloc (Some 2%positive); printf (RX_recebido 1 1);
           ev_free 2%positive; ev_free 1%positive;
           ev_set_bits BIT_TASK2_OK; esp_task_wdt_reset hTask2]) ∧
  3 = signalled_since_observation 0
        [ev_malloc (Some 1%positive); ev_set_bits BIT_TASK1_OK;
         printf (TX_enviado 1 1); esp_task_wdt_reset hTask1;
         vTaskDelay 1000;
         ev_malloc (Some 2%positive); printf (RX_recebido 1 1);
         ev_free 2%positive; ev_free 1%positive;
         ev_set_bits BIT_TASK2_OK; esp_task_wdt_reset hTask2].
Proof.
  split; [reflexivity|].
  exact (proj1 (observe_and_clear_exact [run_Task1 true; run_Task2 true]
                  (mk_sys ∅ (mk_queue 1 []) 3 2 None 0) _ eq_refl)).
Defined.

(** ** Recovery: the queue reset *)

(** C8: [xQueueReset] brings the occupancy to 0 whatever the queue held, and
    a recovery iteration of Task2 calls it and leaves the queue empty.  But
    the slot holds a pointer, and the recovery frees nothing: when Task1
    has sent an item after Task2's fifth wait in a row timed out and before
    Task2 resets the queue, the reset drops the only pointer to that item
    and its block stays allocated, owned by nobody. *)
Theorem recovery_reset_drops_pointer_keeps_block :
  (∀ q, uxMessagesWaiting (xQueueReset q) = 0%nat ∧
        uxItems (xQueueReset q) = [] ∧
        uxLength (xQueueReset q) = uxLength q) ∧
  (∀ s, ev_queue_reset ∈ (Task2_timed_out s).2 →
        uxItems (fila (Task2_timed_out s).1) = [] ∧
        timeout (Task2_timed_out s).1 = 0) ∧
  (∀ s, heap (Task2_timed_out s).1 = heap s ∧
        count_if is_free (Task2_timed_out s).2 = 0%nat) ∧
  let s0 := mk_sys ∅ (mk_queue 1 []) 0 1 None 4 in
  (exec boot [run_Task2 true; run_Task2 true; run_Task2 true; run_Task2 true]
   = Some (s0, [printf (FILA_nenhum_dado 1 false);
                printf (FILA_nenhum_dado 2 true);
                printf (FILA_nenhum_dado 3 true);
                printf ALERTA_Task2;
                printf (FILA_nenhum_dado 4 true)])) ∧
  Task2_preempted s0 [other_Task1 true] true =
    Some (mk_sys {[1%positive := mk_dado 1 1]} (mk_queue 1 []) 1 2 None 0,
          [ev_malloc (Some 1%positive); ev_set_bits BIT_TASK1_OK;
           printf (TX_enviado 1 1); esp_task_wdt_reset hTask1;
           vTaskDelay 1000;
           printf (FILA_nenhum_dado 5 true); printf RECUPERACAO_fila;
           ev_queue_reset]).
Proof.
  split; [done|]. split; [|split]; [| |split; reflexivity].
  - intros s. unfold Task2_timed_out.
    destruct (int_succ (timeout s) >=? 5), (int_succ (timeout s) =? 3);
      simpl; intros; trace_mem.
  - intros s. unfold Task2_timed_out.
    by destruct (int_succ (timeout s) >=? 5), (int_succ (timeout s) =? 3).
Qed.

(** * The whole system *)

(** ** Iterations written out *)

(** An iteration of Task1 that finds memory, on a state that satisfies the
    invariant: the item goes into the empty queue, or is dropped. *)
Lemma Task1_eq (s : sys) :
  inv s ->
  Task1 s true =
  let dados := fresh (dom (heap s)) in
  match uxItems (fila s) with
  | [] =>
      (mk_sys {[dados := mk_dado (seq s) (seq s)]}
         (mk_queue 1 [Some dados])
         (xEventGroupSetBits (event_supervisor s) BIT_TASK1_OK)
         (int_succ (seq s)) (dados_recebidos s) (timeout s),
       [ev_malloc (Some dados); ev_set_bits BIT_TASK1_OK;
        printf (TX_enviado (seq s) (seq s));
        esp_task_wdt_reset hTask1; vTaskDelay 1000])
  | _ :: _ =>
      (mk_sys (heap s) (fila s) (event_supervisor s) (int_succ (seq s))
         (dados_recebidos s) (timeout s),
       [ev_malloc (Some dados); printf (FILA_descartado (seq s) (seq s));
        ev_free dados; esp_task_wdt_reset hTask1; vTaskDelay 1000])
  end.
Proof.
  destruct s as [h [cap items] e sq dr t].
  intros (Hcap & Hq & _); simpl in *; subst cap.
  unfold Task1, xQueueSend, uxMessagesWaiting. rewrite malloc_true. simpl.
  destruct Hq as [[-> ->] | (p & d & -> & ->)]; simpl.
  - by rewrite insert_empty.
  - by rewrite delete_insert_id by apply malloc_not_live.
Qed.

Lemma Task3_eq (s : sys) :
  inv s ->
  Task3 s =
  (mk_sys (heap s) (fila s) 0 (seq s) (dados_recebidos s) (timeout s),
   [ev_wait_bits (event_supervisor s);
    printf (Task3_report (event_supervisor s));
    esp_task_wdt_reset hTask3; vTaskDelay 2000]).
Proof.
  intros Hs. unfold Task3. by rewrite Task3_wait_clears by apply Hs.
Qed.

(** Case analysis on one step from a state that satisfies the invariant,
    keeping the resulting state in full: Task1 without memory, sending, and
    dropping; Task2 timing out (for each value of its counter) and receiving
    (with and without a working copy); Task3 (for each report). *)
Ltac step_full s a Hs Hstep :=
  let ok := fresh "ok" in
  let item := fresh "item" in
  let rest := fresh "rest" in
  let Hitems := fresh "Hitems" in
  let p := fresh "p" in
  let d := fresh "d" in
  let Hh := fresh "Hh" in
  destruct a as [ok | ok |]; simpl in Hstep;
  [ destruct ok;
    [ rewrite Task1_eq in Hstep by done; cbv zeta in Hstep;
      destruct (uxItems (fila s)) as [|item rest] eqn:Hitems;
      [ | destruct (inv_occupied s item rest Hs Hitems)
            as (p & d & -> & -> & Hh) ];
      injection Hstep as <- <-
    | injection Hstep as <- <- ]
  | destruct (uxItems (fila s)) as [|item rest] eqn:Hitems;
    [ let Ht := fresh "Ht" in
      assert (Ht : 0 <= timeout s <= 4) by apply Hs;
      rewrite Task2_empty in Hstep by done;
      rewrite Task2_timed_out_eq in Hstep by done;
      injection Hstep as <- <-;
      destruct s; simpl in *;
      match goal with H : 0 <= ?t <= 4 |- _ => counter_cases t H end
    | destruct (inv_occupied s item rest Hs Hitems) as (p & d & -> & -> & Hh);
      rewrite (Task2_occupied s ok (Some p) []) in Hstep by done;
      rewrite (Task2_received_live s _ p d) in Hstep
        by (rewrite Hh; apply lookup_singleton_eq);
      injection Hstep as <- <-; destruct ok ]
  | rewrite Task3_eq in Hstep by done;
    injection Hstep as <- <-;
    let Hr := fresh "Hr" in
    destruct (Task3_report_cases (event_supervisor s))
      as [Hr|[Hr|[Hr|Hr]]]; rewrite ?Hr ].

Lemma count_if_app (f : event -> bool) (tr1 tr2 : list event) :
  count_if f (tr1 ++ tr2) = (count_if f tr1 + count_if f tr2)%nat.
Proof. unfold count_if. by rewrite List.filter_app, length_app. Qed.

Lemma occurrences_app (e : event) (tr1 tr2 : list event) :
  occurrences e (tr1 ++ tr2) = (occurrences e tr1 + occurrences e tr2)%nat.
Proof. unfold occurrences. by rewrite List.filter_app, length_app. Qed.

(** In a state that satisfies the invariant the heap holds as many blocks
    as the queue holds pointers. *)
Lemma inv_heap_size (s : sys) :
  inv s -> size (heap s) = length (uxItems (fila s)).
Proof.
  intros (_ & [[-> ->] | (p & d & -> & ->)] & _).
  - apply map_size_empty.
  - apply map_size_singleton.
Qed.

(** ** Memory *)

Lemma live_blocks_after_nil (acc : Z) : live_blocks_after acc [] = acc.
Proof. unfold live_blocks_after, count_if. simpl. lia. Qed.

Lemma live_blocks_after_app (acc : Z) (tr1 tr2 : list event) :
  live_blocks_after acc (tr1 ++ tr2) =
  live_blocks_after (live_blocks_after acc tr1) tr2.
Proof. unfold live_blocks_after. rewrite !count_if_app. lia. Qed.

Lemma step_live_blocks (s : sys) (a : action) (s' : sys) (tr : list event) :
  inv s -> step s a = Some (s', tr) ->
  live_blocks_after (Z.of_nat (length (uxItems (fila s)))) tr =
  Z.of_nat (length (uxItems (fila s'))).
Proof.
  intros Hs Hstep.
  step_full s a Hs Hstep; unfold live_blocks_after, count_if; simpl;
    rewrite ?Hitems; simpl; lia.
Qed.


(** X2: in every run the blocks are accounted for: the successful mallocs
    are as many as the frees plus the blocks still live, and the live
    blocks are exactly those the queue points to, at most one.  Nothing
    leaks as long as no iteration is preempted. *)
Theorem allocation_balance (l : list action) (s : sys) (tr : list event) :
  exec boot l = Some (s, tr) ->
  count_if is_malloc_ok tr = (count_if is_free tr + size (heap s))%nat ∧
  (size (heap s) <= 1)%nat ∧
  ∀ p, is_Some (heap s !! p) ↔ Some p ∈ uxItems (fila s).
Proof.
  intros Hl. pose proof (run_inv l s tr Hl) as Hs.
  assert (Hbal : live_blocks_after 0 tr =
                 Z.of_nat (length (uxItems (fila s)))).
  { apply (exec_fold live_blocks_after
             (fun s => Z.of_nat (length (uxItems (fila s))))
             live_blocks_after_nil
             live_blocks_after_app step_live_blocks l boot s tr inv_boot Hl). }
  rewrite (inv_heap_size s Hs).
  split; [unfold live_blocks_after in Hbal; lia|].
  destruct Hs as (_ & [[Hnil Hh] | (q & d & Hq & Hh)] & _);
    rewrite ?Hnil, ?Hq, Hh; (split; [simpl; lia|]); intros p.
  - rewrite lookup_empty. split; [by intros [] | by intros ?%elem_of_nil].
  - rewrite list_elem_of_singleton. split.
    + intros [d' Hd']. apply lookup_singleton_Some in Hd' as [-> _]. done.
    + intros [= ->]. rewrite lookup_singleton_eq. by eexists.
Qed.

Lemma allocation_balance_witness :
  exec boot [run_Task1 true; run_Task1 true; run_Task2 true; run_Task1 true]
  = Some (mk_sys {[1%positive := mk_dado 3 3]}
            (mk_queue 1 [Some 1%positive]) 3 4 None 0,
          [ev_malloc (Some 1%positive); ev_set_bits BIT_TASK1_OK;
           printf (TX_enviado 1 1); esp_task_wdt_reset hTask1;
           vTaskDelay 1000;
           ev_malloc (Some 2%positive); printf (FILA_descartado 2 2);
           ev_free 2%positive; esp_task_wdt_reset hTask1; vTaskDelay 1000;
           ev_malloc (Some 2%positive); printf (RX_recebido 1 1);
           ev_free 2%positive; ev_free 1%positive;
           ev_set_bits BIT_TASK2_OK; esp_task_wdt_reset hTask2;
           ev_malloc (Some 1%positive); ev_set_bits BIT_TASK1_OK;
           printf (TX_enviado 3 3); esp_task_wdt_reset hTask1;
           vTaskDelay 1000]) ∧
  (size ({[1%positive := mk_dado 3 3]} : gmap positive dado_t) <= 1)%nat.
Proof.
  split; [reflexivity|].
  exact (proj1 (proj2 (allocation_balance
    [run_Task1 true; run_Task1 true; run_Task2 true; run_Task1 true]
    (mk_sys {[1%positive := mk_dado 3 3]}
       (mk_queue 1 [Some 1%positive]) 3 4 None 0) _ eq_refl))).
Defined.

(** ** Delivery *)

Lemma sent_app (tr1 tr2 : list event) :
  sent (tr1 ++ tr2) = sent tr1 ++ sent tr2.
Proof. apply omap_app. Qed.

Lemma received_app (tr1 tr2 : list event) :
  received (tr1 ++ tr2) = received tr1 ++ received tr2.
Proof. apply omap_app. Qed.





(** ** Backpressure *)





(** ** Task2 preempted after its receive *)

Lemma other_step_inv (s : sys) (a : other_action) :
  inv s ->
  inv (other_step s a).1 ∧
  timeout (other_step s a).1 = timeout s ∧
  is_empty (other_step s a).1 = is_empty s && negb (allocates [a]).
Proof.
  intros Hs. destruct a as [[] |]; simpl.
  - split; [by apply Task1_inv|]. rewrite Task1_eq by done. cbv zeta.
    unfold is_empty.
    destruct (uxItems (fila s)) eqn:E; simpl; by rewrite ?E.
  - split; [by apply (Task1_inv s false)|].
    by rewrite andb_true_r.
  - split; [by apply Task3_inv|]. rewrite Task3_eq by done.
    by rewrite andb_true_r.
Qed.

Lemma other_exec_inv (others : list other_action) (s : sys) :
  inv s ->
  inv (other_exec s others).1 ∧
  timeout (other_exec s others).1 = timeout s ∧
  is_empty (other_exec s others).1 = is_empty s && negb (allocates others).
Proof.
  revert s. induction others as [|a others IH]; intros s Hs; simpl.
  - by rewrite andb_true_r.
  - destruct (other_step_inv s a Hs) as (Hs1 & Ht1 & He1).
    destruct (other_step s a) as [s1 tr1]; simpl in *.
    destruct (IH s1 Hs1) as (Hs2 & Ht2 & He2).
    destruct (other_exec s1 others) as [s2 tr2]; simpl in *.
    split; [done|]. split; [congruence|].
    rewrite He2, He1, orb_false_r.
    destruct (is_empty s), a as [[]|]; simpl; try done;
      by destruct (allocates others).
Qed.

Lemma other_step_holding (p : positive) (s : sys) (a : other_action) :
  inv_holding p s -> inv_holding p (other_step s a).1.
Proof.
  destruct s as [h [cap items] e sq dr t].
  intros (Hcap & (d & Hq) & Ht & He); simpl in *; subst cap.
  destruct a as [[] |]; simpl.
  - unfold Task1, xQueueSend, uxMessagesWaiting. rewrite malloc_true. simpl.
    destruct Hq as [[-> ->] | (q & d' & Hne & -> & ->)]; simpl.
    + split; [done|]. split; [|split; [done|by apply set_bit_in_range; [|left]]].
      exists d. right. eexists _, _. split; [|done].
      intros Heq. apply (is_fresh (dom ({[p := d]} : gmap positive dado_t))).
      rewrite Heq. apply elem_of_dom. rewrite lookup_singleton_eq. by eexists.
    + split; [done|]. split; [|done].
      exists d. right. exists q, d'. split; [done|]. split; [done|].
      apply delete_insert_id, malloc_not_live.
  - split; [done|]. split; [by exists d | done].
  - unfold Task3. rewrite Task3_wait_clears by done.
    unfold inv_holding; cbn [fst fila heap timeout event_supervisor uxLength
                             uxItems].
    split; [done|]. split; [by exists d | split; [done | lia]].
Qed.

Lemma other_exec_holding (p : positive) (others : list other_action)
    (s : sys) :
  inv_holding p s -> inv_holding p (other_exec s others).1.
Proof.
  revert s. induction others as [|a others IH]; intros s Hs; simpl; [done|].
  pose proof (other_step_holding p s a Hs) as Hs1.
  destruct (other_step s a) as [s1 tr1]; simpl in *.
  pose proof (IH s1 Hs1) as Hs2.
  by destruct (other_exec s1 others) as [s2 tr2].
Qed.

(** X5: an iteration of Task2 during which Task1 and Task3 run right after
    its [xQueueReceive] has returned never runs into undefined behaviour:
    the block it received stays live until Task2 frees it, whatever Task1
    allocates, sends or drops meanwhile.  Afterwards the invariant of the
    tasks holds again, with one exception: when the wait that timed out was
    the fifth in a row and Task1 found memory meanwhile, the queue is empty
    while one block is still live. *)
Theorem Task2_preempted_outcome (l : list action) (s : sys)
    (tr : list event) (others : list other_action) (ok : bool) :
  exec boot l = Some (s, tr) ->
  ∃ s' tr', Task2_preempted s others ok = Some (s', tr') ∧
    if (timeout s =? 4) && is_empty s && allocates others
    then uxItems (fila s') = [] ∧ ∃ q d, heap s' = {[q := d]}
    else inv s'.
Proof.
  intros Hl. pose proof (run_inv l s tr Hl) as Hs.
  unfold Task2_preempted, xQueueReceive, is_empty.
  destruct (uxItems (fila s)) as [|item rest] eqn:Hitems.
  - destruct (other_exec_inv others s Hs) as (Hs2 & Ht2 & He2).
    unfold is_empty in He2. rewrite Hitems in He2. simpl in He2.
    destruct (other_exec s others) as [s2 tr2]; simpl in *.
    assert (Ht : 0 <= timeout s2 <= 4) by apply Hs2.
    rewrite Task2_timed_out_eq by done. eexists _, _. split; [done|].
    rewrite Ht2. rewrite andb_true_r.
    destruct Hs2 as (Hcap & Hq & Hdr & _ & Hbits).
    destruct (timeout s =? 4) eqn:H4; simpl.
    + destruct Hq as [[Hnil Hh] | (q & d & Hq & Hh)];
        rewrite ?Hnil, ?Hq in He2; simpl in He2;
        destruct (allocates others); try done.
      * split_inv; [done | by left | done | lia | done].
      * split; [done|]. by exists q, d.
    + apply Z.eqb_neq in H4.
      assert (Hinv : inv (mk_sys (heap s2) (fila s2) (event_supervisor s2)
                            (seq s2) (dados_recebidos s2) (timeout s + 1)))
        by (split_inv; [done | done | done | lia | done]).
      by destruct (allocates others).
  - rewrite andb_false_r. simpl.
    destruct (inv_occupied s item rest Hs Hitems) as (p & d & -> & -> & Hh).
    assert (Hhold : inv_holding p
              (mk_sys (heap s) (mk_queue (uxLength (fila s)) [])
                 (event_supervisor s) (seq s) (Some p) (timeout s))).
    { destruct Hs as (Hcap & _ & _ & Ht & He).
      split; [done|]. split; [|done]. exists d. by left. }
    pose proof (other_exec_holding p others _ Hhold) as Hs2.
    destruct (other_exec _ others) as [s2 tr2]; simpl in *.
    destruct Hs2 as (Hcap & (d2 & Hq) & Ht & He).
    assert (Hp : heap s2 !! p = Some d2).
    { destruct Hq as [[_ ->] | (q & d' & Hne & _ & ->)].
      - apply lookup_singleton_eq.
      - rewrite lookup_insert_ne by done. apply lookup_singleton_eq. }
    rewrite (Task2_received_live s2 _ p d2) by done. simpl.
    eexists _, _. split; [done|].
    split_inv; [done | | done | lia | by apply set_bit_in_range; [|right]].
    destruct Hq as [[-> ->] | (q & d' & Hne & -> & ->)].
    + left. split; [done|]. apply delete_singleton_eq.
    + right. exists q, d'. split; [done|].
      rewrite delete_insert_ne by done.
      by rewrite delete_singleton_eq, insert_empty.
Qed.

Lemma Task2_preempted_outcome_witness :
  exec boot [run_Task1 true] =
    Some (mk_sys {[1%positive := mk_dado 1 1]}
            (mk_queue 1 [Some 1%positive]) 1 2 None 0,
          [ev_malloc (Some 1%positive); ev_set_bits BIT_TASK1_OK;
           printf (TX_enviado 1 1); esp_task_wdt_reset hTask1;
           vTaskDelay 1000]) ∧
  ∃ s' tr',
    Task2_preempted (mk_sys {[1%positive := mk_dado 1 1]}
                       (mk_queue 1 [Some 1%positive]) 1 2 None 0)
      [other_Task1 true; other_Task1 true] true = Some (s', tr') ∧
    inv s'.
Proof.
  split; [reflexivity|].
  exact (Task2_preempted_outcome [run_Task1 true]
           (mk_sys {[1%positive := mk_dado 1 1]}
              (mk_queue 1 [Some 1%positive]) 1 2 None 0) _
           [other_Task1 true; other_Task1 true] true eq_refl).
Defined.

(** ** Task1 preempted after its send *)

(** Preempted by nobody, an iteration of Task1 is the plain one. *)
Lemma Task1_preempted_by_none (s : sys) (ok : bool) :
  Task1_preempted s ok [] = Some (Task1 s ok).
Proof.
  unfold Task1_preempted, Task1. destruct (malloc (heap s) ok) as [dados|];
    [|done].
  destruct (xQueueSend _ _) as [q sent]. cbn [preempting_exec mbind
    option_bind heap fila event_supervisor seq dados_recebidos timeout].
  rewrite lookup_insert_eq. by destruct sent.
Qed.

(** An iteration of Task2 leaves the queue empty and no block live. *)
Lemma Task2_leaves_empty (s : sys) (ok : bool) :
  inv s ->
  ∃ s' tr, Task2 s ok = Some (s', tr) ∧ inv s' ∧ heap s' = ∅.
Proof.
  intros Hs. destruct (Task2_inv s ok Hs) as (s' & tr & Hrun & Hs').
  exists s', tr. split; [done|]. split; [done|].
  destruct (uxItems (fila s)) as [|item rest] eqn:Hitems.
  - rewrite Task2_empty in Hrun by done.
    rewrite Task2_timed_out_eq in Hrun by apply Hs.
    injection Hrun as <- _. simpl.
    destruct Hs as (_ & [[_ Hh] | (p & d & Hp & _)] & _); congruence.
  - destruct (inv_occupied s item rest Hs Hitems) as (p & d & -> & -> & Hh).
    rewrite (Task2_occupied s ok (Some p) []) in Hrun by done.
    rewrite (Task2_received_live s _ p d) in Hrun
      by (rewrite Hh; apply lookup_singleton_eq).
    injection Hrun as <- _. simpl. rewrite Hh. apply delete_singleton_eq.
Qed.

Lemma preempting_exec_inv (others : list preempting_action) (s : sys) :
  inv s ->
  ∃ s2 tr2, preempting_exec s others = Some (s2, tr2) ∧ inv s2 ∧
            heap s2 = if has_Task2 others then ∅ else heap s.
Proof.
  revert s. induction others as [|a others IH]; intros s Hs; simpl.
  - by exists s, [].
  - destruct a as [ok|]; simpl.
    + destruct (Task2_leaves_empty s ok Hs) as (s1 & tr1 & -> & Hs1 & Hh1).
      simpl. destruct (IH s1 Hs1) as (s2 & tr2 & -> & Hs2 & Hh2). simpl.
      eexists _, _. split; [done|]. split; [done|].
      rewrite Hh2, Hh1. by destruct (has_Task2 others).
    + rewrite Task3_eq by done. simpl.
      destruct (IH _ (Task3_inv s Hs)) as (s2 & tr2 & Hrun & Hs2 & Hh2).
      rewrite Task3_eq in Hrun, Hh2 by done. simpl in Hrun, Hh2.
      rewrite Hrun. simpl. by eexists _, _.
Qed.

Lemma preempting_step_holding (p : positive) (s : sys)
    (a : preempting_action) :
  inv_holding p s ->
  ∃ s1 tr1, preempting_step s a = Some (s1, tr1) ∧ inv_holding p s1.
Proof.
  intros (Hcap & (d & Hq) & Ht & He). destruct a as [ok|]; simpl.
  - destruct Hq as [[Hnil Hh] | (q & d' & Hne & Hitems & Hh)].
    + rewrite Task2_empty by done. rewrite Task2_timed_out_eq by done.
      eexists _, _. split; [done|].
      unfold inv_holding; cbn [fila heap timeout event_supervisor].
      split; [by destruct (timeout s =? 4)|].
      split; [|split; [destruct (timeout s =? 4) eqn:E; lia | done]].
      exists d. left. split; [|done]. by destruct (timeout s =? 4).
    + rewrite (Task2_occupied s ok (Some q) []) by done.
      rewrite (Task2_received_live s _ q d')
        by (rewrite Hh; apply lookup_insert_eq).
      eexists _, _. split; [done|].
      unfold inv_holding;
        cbn [fila heap timeout event_supervisor uxLength uxItems].
      split; [done|].
      split; [|split; [lia | by apply set_bit_in_range; [|right]]].
      exists d. left. split; [done|]. rewrite Hh.
      apply delete_insert_id. by apply lookup_singleton_ne.
  - unfold Task3. rewrite Task3_wait_clears by done.
    eexists _, _. split; [done|].
    unfold inv_holding; cbn [fst fila heap timeout event_supervisor uxLength
                             uxItems].
    split; [done|]. split; [by exists d | split; [done | lia]].
Qed.

Lemma preempting_exec_holding (p : positive)
    (others : list preempting_action) (s : sys) :
  inv_holding p s ->
  ∃ s2 tr2, preempting_exec s others = Some (s2, tr2) ∧ inv_holding p s2.
Proof.
  revert s. induction others as [|a others IH]; intros s Hs; simpl.
  - by exists s, [].
  - destruct (preempting_step_holding p s a Hs) as (s1 & tr1 & -> & Hs1).
    simpl. destruct (IH s1 Hs1) as (s2 & tr2 & -> & Hs2). simpl.
    by eexists _, _.
Qed.

Lemma inv_holding_live (p : positive) (s : sys) :
  inv_holding p s -> is_Some (heap s !! p).
Proof.
  intros (_ & (d & [[_ ->] | (q & d' & Hne & _ & ->)]) & _).
  - rewrite lookup_singleton_eq. by eexists.
  - rewrite lookup_insert_ne by done. rewrite lookup_singleton_eq.
    by eexists.
Qed.

(** X6: Task1 prints its TX line from the block after it has handed the
    pointer to the queue.  If Task2 runs an iteration between
    [xQueueSend] and that printf it has received and freed the block, and
    the printf reads freed memory: the iteration has no defined result.
    That is the only way: an iteration of Task1 preempted there is
    undefined iff its send succeeded and Task2 ran meanwhile; a dropped
    item stays Task1's own and is read and freed safely whatever Task2
    does. *)
Theorem Task1_reads_item_after_handing_it_over (l : list action) (s : sys)
    (tr : list event) (ok : bool) (others : list preempting_action) :
  exec boot l = Some (s, tr) ->
  Task1_preempted s ok others = None ↔
  Task1_sent s ok = true ∧ has_Task2 others = true.
Proof.
  intros Hl. pose proof (run_inv l s tr Hl) as Hs.
  unfold Task1_preempted, Task1_sent.
  destruct ok; [rewrite malloc_true | by split; [|intros []]].
  set (dados := fresh (dom (heap s))).
  destruct Hs as (Hcap & Hq & Hdr & Ht & He).
  unfold xQueueSend, uxMessagesWaiting. rewrite Hcap.
  destruct Hq as [[Hnil Hh] | (p & d & Hitems & Hh)].
  - rewrite Hnil. simpl.
    assert (Hs1 : inv (mk_sys (<[dados := mk_dado (seq s) (seq s)]> (heap s))
                         (mk_queue 1 [Some dados]) (event_supervisor s)
                         (int_succ (seq s)) (dados_recebidos s) (timeout s))).
    { split_inv; [done | | done | done | done].
      right. eexists _, _. split; [done|]. by rewrite Hh, insert_empty. }
    match goal with
    | |- context [preempting_exec ?x others] =>
        destruct (preempting_exec_inv others x Hs1)
          as (s2 & tr2 & -> & _ & Hh2)
    end.
    simpl in *. rewrite Hh2.
    destruct (has_Task2 others).
    + rewrite lookup_empty. simpl. by split.
    + rewrite lookup_insert_eq. simpl. split; [done | by intros []].
  - rewrite Hitems. simpl.
    assert (Hne : p ≠ dados).
    { intros ->. apply (is_fresh (dom (heap s))). fold dados.
      apply elem_of_dom. rewrite Hh, lookup_singleton_eq. by eexists. }
    assert (Hs1 : inv_holding dados
                    (mk_sys (<[dados := mk_dado (seq s) (seq s)]> (heap s))
                       (fila s) (event_supervisor s) (int_succ (seq s))
                       (dados_recebidos s) (timeout s))).
    { split; [done|]. split; [|done].
      exists (mk_dado (seq s) (seq s)). right. exists p, d.
      split; [done|]. split; [done|]. simpl. rewrite Hh.
      rewrite <- !insert_empty. by apply insert_insert_ne. }
    match goal with
    | |- context [preempting_exec ?x others] =>
        destruct (preempting_exec_holding dados others x Hs1)
          as (s2 & tr2 & -> & Hs2)
    end.
    simpl. destruct (inv_holding_live dados s2 Hs2) as [v ->]. simpl.
    split; [done | by intros []].
Qed.

Lemma Task1_reads_item_after_handing_it_over_witness :
  exec boot [run_Task3] =
    Some (mk_sys ∅ (mk_queue 1 []) 0 1 None 0,
          [ev_wait_bits 0; printf FALHA_nenhuma;
           esp_task_wdt_reset hTask3; vTaskDelay 2000]) ∧
  (Task1_preempted (mk_sys ∅ (mk_queue 1 []) 0 1 None 0) true
     [by_Task3; by_Task2 true] = None ↔
   true = true ∧ true = true).
Proof.
  split; [reflexivity|].
  exact (Task1_reads_item_after_handing_it_over [run_Task3]
           (mk_sys ∅ (mk_queue 1 []) 0 1 None 0) _ true
           [by_Task3; by_Task2 true] eq_refl).
Defined.

(** ** Start-up *)

(** X7: [app_main] initialises the watchdog first, with a period of 5000 ms
    and panic on expiry.  If the queue or the event group cannot be created
    it logs the error and restarts the device, and that is the last thing
    it does: no task is created.  Otherwise it starts from the empty queue
    of length 1 and the empty event group, attempts to create all three
    tasks whatever the outcome of the earlier attempts, and subscribes to
    the watchdog exactly the tasks whose creation succeeded; a task that
    could not be created is not reported and causes no restart. *)
Theorem app_main_startup (fila_ok event_ok t1 t2 t3 : bool) :
  let '(tr, st) := app_main_trace fila_ok event_ok t1 t2 t3 in
  st = app_main fila_ok event_ok ∧
  take 2 tr = [printf_iniciando; esp_task_wdt_init 5000 3 true] ∧
  (st = Some boot ↔ fila_ok = true ∧ event_ok = true) ∧
  (st = None ↔ esp_restart ∈ tr) ∧
  (st = None →
     last tr = Some esp_restart ∧ printf_ERRO_recursos ∈ tr ∧
     (∀ t b, xTaskCreate t b ∉ tr)) ∧
  (st ≠ None →
     (printf_ERRO_recursos ∉ tr) ∧
     xTaskCreate hTask1 t1 ∈ tr ∧ xTaskCreate hTask2 t2 ∈ tr ∧
     xTaskCreate hTask3 t3 ∈ tr ∧
     (∀ t, esp_task_wdt_add t ∈ tr ↔ xTaskCreate t true ∈ tr)).
Proof.
  destruct fila_ok, event_ok, t1, t2, t3; cbn;
    repeat match goal with
           | |- _ ∧ _ => split
           | |- _ ↔ _ => split
           | |- ¬ _ => intro
           | |- _ → _ => intro
           | |- ∀ _, _ => intro
           | H : _ ∧ _ |- _ => destruct H
           | t : task_handle |- _ => destruct t
           end;
    try done; try discriminate; trace_mem.
Qed.

(** ** What the supervisor's line means *)








(** ** End to end *)


(** As long as the counter has not wrapped, the items created in a run are
    those with ids 1, 2, ..., in this order. *)
Lemma created_sequence (l : list action) (s : sys) (tr : list event) :
  exec boot l = Some (s, tr) ->
  Z.of_nat (length (created tr)) <= INT_MAX ->
  created tr =
    (fun k => mk_dado k k) <$> seqZ 1 (Z.of_nat (length (created tr))).
Proof.
  intros Hl Hlen.
  destruct (exec_created l boot s tr inv_boot eq_refl Hl) as [_ Hk].
  apply list_eq. intros i. rewrite list_lookup_fmap.
  destruct (decide (i < length (created tr))%nat) as [Hi|Hi].
  - rewrite lookup_seqZ_lt by lia. simpl.
    destruct (proj2 (lookup_lt_is_Some (created tr) i) Hi) as [d Hd].
    rewrite Hd, (Hk i d Hd). simpl seq.
    by rewrite int_wrap_in_range by (unfold INT_MIN, INT_MAX in *; lia).
  - rewrite lookup_seqZ_ge by lia. simpl. apply lookup_ge_None. lia.
Qed.



(** One iteration of Task1 on the empty queue followed by one of Task2,
    both finding memory: the item is sent, received and freed. *)
Lemma send_then_receive (s : sys) :
  inv s -> uxItems (fila s) = [] ->
  ∃ s' tr,
    exec s [run_Task1 true; run_Task2 true] = Some (s', tr) ∧
    inv s' ∧ uxItems (fila s') = [] ∧ seq s' = int_succ (seq s) ∧
    created tr = [mk_dado (seq s) (seq s)] ∧
    sent tr = [mk_dado (seq s) (seq s)] ∧
    received tr = [mk_dado (seq s) (seq s)].
Proof.
  intros Hs Hnil.
  pose proof (Task1_inv s true Hs) as Hs1.
  pose proof (Task1_eq s Hs) as E1. cbv zeta in E1. rewrite Hnil in E1.
  cbn [exec step]. rewrite E1 in Hs1 |- *.
  cbn [mbind option_bind fst] in Hs1 |- *.
  match goal with
  | |- context [Task2 ?x true] =>
      rewrite (Task2_occupied x true (Some (fresh (dom (heap s)))) [])
        by done;
      rewrite (Task2_received_live x _ _ (mk_dado (seq s) (seq s)))
        by apply lookup_singleton_eq
  end.
  cbn [mbind option_bind]. eexists _, _. split; [done|].
  split; [|done].
  split_inv; [done | | done | lia |].
  - left. split; [done|]. apply delete_singleton_eq.
  - apply set_bit_in_range; [apply Hs1 | by right].
Qed.

Lemma exec_alternating (n : nat) (s : sys) :
  inv s -> uxItems (fila s) = [] ->
  ∃ s' tr,
    exec s (concat (replicate n [run_Task1 true; run_Task2 true]))
      = Some (s', tr) ∧
    uxItems (fila s') = [] ∧
    length (created tr) = n ∧
    sent tr = created tr ∧ received tr = created tr.
Proof.
  revert s. induction n as [|n IH]; intros s Hs Hnil.
  - by exists s, [].
  - destruct (send_then_receive s Hs Hnil)
      as (s1 & tr1 & Hrun1 & Hs1 & Hnil1 & _ & C1 & S1 & R1).
    destruct (IH s1 Hs1 Hnil1) as (s2 & tr2 & Hrun2 & Hnil2 & L2 & S2 & R2).
    rewrite replicate_S, concat_cons, exec_app, Hrun1. simpl.
    rewrite Hrun2. simpl. eexists _, _. split; [done|].
    rewrite created_app, sent_app, received_app, length_app.
    rewrite C1, S1, R1, S2, R2, L2. done.
Qed.

(** X10: when Task1 and Task2 take turns and memory is available, nothing
    is dropped: after n rounds (n up to INT_MAX) the TX lines and the RX
    lines both show exactly the items with ids 1, 2, ..., n, in this order,
    and the queue is empty again. *)
Theorem alternating_run_delivers_everything (n : nat) :
  Z.of_nat n <= INT_MAX ->
  ∃ s tr,
    exec boot (concat (replicate n [run_Task1 true; run_Task2 true]))
      = Some (s, tr) ∧
    uxItems (fila s) = [] ∧
    sent tr = (fun k => mk_dado k k) <$> seqZ 1 (Z.of_nat n) ∧
    received tr = (fun k => mk_dado k k) <$> seqZ 1 (Z.of_nat n) ∧
    count_if is_free tr = count_if is_malloc_ok tr.
Proof.
  intros Hn.
  destruct (exec_alternating n boot inv_boot eq_refl)
    as (s & tr & Hrun & Hnil & Hlen & S & R).
  exists s, tr. split; [done|]. split; [done|].
  pose proof (created_sequence _ s tr Hrun) as Hc. rewrite Hlen in Hc.
  rewrite S, R, Hc by done. split; [done|]. split; [done|].
  pose proof (run_inv _ s tr Hrun) as Hs.
  pose proof (exec_fold live_blocks_after
                (fun s => Z.of_nat (length (uxItems (fila s))))
                live_blocks_after_nil live_blocks_after_app step_live_blocks
                _ boot s tr inv_boot Hrun) as Hbal.
  cbv beta in Hbal. rewrite Hnil in Hbal.
  unfold live_blocks_after in Hbal. simpl in Hbal. lia.
Qed.

Lemma alternating_run_delivers_everything_witness :
  Z.of_nat 2 <= INT_MAX ∧
  ∃ s tr,
    exec boot (concat (replicate 2 [run_Task1 true; run_Task2 true]))
      = Some (s, tr) ∧
    uxItems (fila s) = [] ∧
    sent tr = [mk_dado 1 1; mk_dado 2 2].
Proof.
  split; [unfold INT_MAX; lia|].
  destruct (alternating_run_delivers_everything 2)
    as (s & tr & Hrun & Hnil & S & _); [unfold INT_MAX; lia|].
  exists s, tr. split; [exact Hrun|]. split; [exact Hnil | exact S].
Defined.

(** ** Sustained silence *)

Lemma exec_Task2_starved (n : nat) (ok : bool) :
  ∃ s tr,
    exec boot (replicate n (run_Task2 ok)) = Some (s, tr) ∧
    inv s ∧ uxItems (fila s) = [] ∧
    timeout s = Z.of_nat n mod 5 ∧
    Z.of_nat (occurrences (printf ALERTA_Task2) tr) = (Z.of_nat n + 2) / 5 ∧
    Z.of_nat (occurrences (printf RECUPERACAO_fila) tr) = Z.of_nat n / 5 ∧
    Z.of_nat (occurrences ev_queue_reset tr) = Z.of_nat n / 5 ∧
    length (logged_attempts tr) = n.
Proof.
  induction n as [|n (s & tr & Hrun & Hs & Hnil & Ht & Ha & Hr & Hq & Hn)].
  - exists boot, []. split; [done|]. split; [apply inv_boot|]. done.
  - rewrite replicate_S_end, exec_app, Hrun. cbn [mbind option_bind exec step].
    rewrite Task2_empty by done.
    rewrite Task2_timed_out_eq by apply Hs.
    cbn [mbind option_bind]. eexists _, _. split; [done|].
    assert (Hrange : 0 <= timeout s <= 4) by apply Hs.
    destruct Hs as (Hcap & Hheap & Hdr & _ & Hbits).
    rewrite !occurrences_app, !Nat2Z.inj_add, Ha, Hr, Hq.
    unfold logged_attempts in *. rewrite omap_app, length_app, Hn.
    rewrite Nat2Z.inj_succ. unfold Z.succ.
    assert (Hcases : timeout s = 0 ∨ timeout s = 1 ∨ timeout s = 2 ∨
                     timeout s = 3 ∨ timeout s = 4) by lia.
    destruct Hcases as [E|[E|[E|[E|E]]]]; rewrite E in *;
      unfold occurrences; simpl;
      (split; [split_inv; [done | | done | lia | done];
               destruct Hheap as [[_ ?] | (p & d & ? & _)];
                 [by left | congruence] |]);
      (split; [done|]);
      repeat split; try lia; Z.div_mod_to_equations; lia.
Qed.

(** X11: when no item ever arrives, Task2 escalates in a fixed cadence: in
    a run of n of its iterations alone, every iteration logs "nenhum dado",
    the ALERTA line is printed at iterations 3, 8, 13, ... and the queue is
    reset (RECUPERAÇÃO) at iterations 5, 10, 15, ...; afterwards the
    counter is n mod 5 and the queue is empty. *)
Theorem starved_receiver_cadence (n : nat) (ok : bool) :
  ∃ s tr,
    exec boot (replicate n (run_Task2 ok)) = Some (s, tr) ∧
    uxItems (fila s) = [] ∧
    timeout s = Z.of_nat n mod 5 ∧
    length (logged_attempts tr) = n ∧
    Z.of_nat (occurrences (printf ALERTA_Task2) tr) = (Z.of_nat n + 2) / 5 ∧
    Z.of_nat (occurrences (printf RECUPERACAO_fila) tr) = Z.of_nat n / 5 ∧
    Z.of_nat (occurrences ev_queue_reset tr) = Z.of_nat n / 5.
Proof.
  destruct (exec_Task2_starved n ok)
    as (s & tr & Hrun & _ & Hnil & Ht & Ha & Hr & Hq & Hn).
  by exists s, tr.
Qed.
